(** * mididings: parameter checking ([mididings/util.py]) and typed event
      attributes ([mididings/event.py])

    A shallow embedding of the two Python modules, followed by the properties
    established about them.  Python values are a small tagged union, raised
    exceptions are an explicit result, the process-wide configuration of
    [mididings.setup] is a record passed to every function that reads it, and
    [print] appends to an output log.  Integers are unbounded and the
    builtins behave as in Python 3. *)

From Stdlib Require Import ZArith List String Ascii Bool Lia.
From Stdlib Require Import Strings.Byte Decimal DecimalString DecimalZ.
Import ListNotations.

#[local] Open Scope string_scope.
#[local] Open Scope Z_scope.
#[local] Set Warnings "-register-all".

(** ** The Python values the two modules handle *)

Module Py.

(** [NoDataOffset] is the [int] subclass declared in util.py; every other
    constructor is a builtin type.  A string holds characters with codes
    from 0 to 255.  [PyNone] is the object [None]; values of other types
    (floats, bytes, dictionaries, iterators) are not among the values
    modelled. *)
Inductive pyval : Type :=
| PyInt (n : Z)
| NoDataOffset (n : Z)
| PyStr (s : string)
| PyTuple (items : list pyval)
| PyList (items : list pyval)
| PyByteArray (bytes : list byte)
| PyNone.

(** [isinstance(v, int)], with the integer the object holds. *)
Definition as_int (v : pyval) : option Z :=
  match v with
  | PyInt n | NoDataOffset n => Some n
  | _ => None
  end.

(** The exception classes that occur, all subclasses of [Exception]. *)
Inductive exn_class : Type :=
| TypeError | ValueError | IndexError | KeyError | UnboundLocalError
| AttributeError | OverflowError.

(** A raised exception: its class, the format string of its message and the
    arguments of the [%] operator, kept unformatted. *)
Record exn : Type := Exn {
  exn_cls : exn_class;
  exn_fmt : string;
  exn_args : list pyval
}.

Inductive result (A : Type) : Type :=
| Ok (a : A)
| Raise (e : exn).
Arguments Ok {A} a.
Arguments Raise {A} e.

Definition bind {A B : Type} (m : result A) (k : A -> result B) : result B :=
  match m with
  | Ok a => k a
  | Raise e => Raise e
  end.

Declare Scope py_scope.
Delimit Scope py_scope with py.
Notation "x <- m ;; k" := (bind m (fun x => k))
  (at level 61, m at next level, right associativity) : py_scope.
#[local] Open Scope py_scope.

(** [try: m  except Exception: h] *)
Definition try_except {A : Type} (m : result A) (h : exn -> result A)
  : result A :=
  match m with
  | Ok a => Ok a
  | Raise e => h e
  end.

Definition exn_class_eqb (a b : exn_class) : bool :=
  match a, b with
  | TypeError, TypeError | ValueError, ValueError | IndexError, IndexError
  | KeyError, KeyError | UnboundLocalError, UnboundLocalError
  | AttributeError, AttributeError | OverflowError, OverflowError => true
  | _, _ => false
  end.

(** [try: m  except (c1, c2, ...): h]; other classes propagate. *)
Definition try_except_only {A : Type} (classes : list exn_class)
  (m : result A) (h : exn -> result A) : result A :=
  match m with
  | Ok a => Ok a
  | Raise e =>
      if existsb (exn_class_eqb (exn_cls e)) classes then h e else Raise e
  end.

Definition raise {A : Type} (c : exn_class) (fmt : string)
  (args : list pyval) : result A :=
  Raise (Exn c fmt args).

(** The exception [c(fmt % v)] for a format with one conversion.  A tuple
    on the right of [%] is the tuple of arguments: only one of a single
    item fits such a format, any other is a [TypeError] of the formatting
    itself. *)
Definition format_exn (c : exn_class) (fmt : string) (v : pyval) : exn :=
  match v with
  | PyTuple [x] => Exn c fmt [x]
  | PyTuple [] => Exn TypeError "not enough arguments for format string" []
  | PyTuple _ =>
      Exn TypeError "not all arguments converted during string formatting" []
  | _ => Exn c fmt [v]
  end.

Definition of_option {A : Type} (o : option A) (e : exn) : result A :=
  match o with
  | Some a => Ok a
  | None => Raise e
  end.

(** *** Strings *)

Definition ord (c : ascii) : Z := Z.of_N (N_of_ascii c).

(** [c.isdigit()]: the ten decimal digits and the superscript digits
    [\xb2], [\xb3] and [\xb9]. *)
Definition isdigit (c : ascii) : bool :=
  ((48 <=? ord c) && (ord c <=? 57))
  || (ord c =? 178) || (ord c =? 179) || (ord c =? 185).

(** The whitespace [int] skips around a number: [\t] to [\r], the space,
    [\x85] and [\xa0]. *)
Definition isspace (c : ascii) : bool :=
  (ord c =? 32) || ((9 <=? ord c) && (ord c <=? 13))
  || (ord c =? 133) || (ord c =? 160).

(** The capital letters are [A] to [Z], [\xc0] to [\xd6] and [\xd8] to
    [\xde]; each has its small letter 32 places further. *)
Definition lower_char (c : ascii) : ascii :=
  if ((65 <=? ord c) && (ord c <=? 90))
     || ((192 <=? ord c) && (ord c <=? 214))
     || ((216 <=? ord c) && (ord c <=? 222))
  then ascii_of_N (N_of_ascii c + 32)
  else c.

(** [s.lower()] *)
Fixpoint lower (s : string) : string :=
  match s with
  | EmptyString => EmptyString
  | String c s' => String (lower_char c) (lower s')
  end.

(** [s[:i]] and [s[i:]] for [0 <= i]. *)
Fixpoint slice_to (i : nat) (s : string) : string :=
  match i, s with
  | S i', String c s' => String c (slice_to i' s')
  | _, _ => EmptyString
  end.

Fixpoint slice_from (i : nat) (s : string) : string :=
  match i, s with
  | S i', String _ s' => slice_from i' s'
  | _, _ => s
  end.

(** [s.split(sep)] for a separator of one character. *)
Fixpoint split (sep : ascii) (s : string) : list string :=
  match s with
  | EmptyString => [EmptyString]
  | String c s' =>
      if Ascii.eqb c sep then EmptyString :: split sep s'
      else match split sep s' with
           | w :: ws => String c w :: ws
           | [] => [String c EmptyString]
           end
  end.

(** [s.split(sep, 1)]: split at the first separator only. *)
Fixpoint split1 (sep : ascii) (s : string) : list string :=
  match s with
  | EmptyString => [EmptyString]
  | String c s' =>
      if Ascii.eqb c sep then [EmptyString; s']
      else match split1 sep s' with
           | w :: ws => String c w :: ws
           | [] => [String c EmptyString]
           end
  end.

(** [[s[i:i+2] for i in range(0, len(s), 2)]] *)
Fixpoint pairs (s : string) : list string :=
  match s with
  | EmptyString => []
  | String a EmptyString => [String a EmptyString]
  | String a (String b s') => String a (String b EmptyString) :: pairs s'
  end.

Fixpoint lstrip (s : string) : string :=
  match s with
  | String c s' => if isspace c then lstrip s' else s
  | EmptyString => EmptyString
  end.

Fixpoint rstrip (s : string) : string :=
  match s with
  | EmptyString => EmptyString
  | String c s' =>
      match rstrip s' with
      | EmptyString => if isspace c then EmptyString else String c EmptyString
      | r => String c r
      end
  end.

Definition strip (s : string) : string := rstrip (lstrip s).

(** *** [int(s, base)] and [str(n)] *)

(** The value of a digit character: [0-9], then [a-z] or [A-Z] from 10. *)
Definition digit_value (c : ascii) : option Z :=
  let n := ord c in
  if (48 <=? n) && (n <=? 57) then Some (n - 48)
  else if (97 <=? n) && (n <=? 122) then Some (n - 87)
  else if (65 <=? n) && (n <=? 90) then Some (n - 55)
  else None.

(** The digits of a number.  One underscore may stand between two digits:
    an underscore that ends the string or is followed by another one is
    refused. *)
Fixpoint parse_digits (base acc : Z) (s : string) : option Z :=
  match s with
  | EmptyString => Some acc
  | String c s' =>
      if Ascii.eqb c "_" then
        match s' with
        | EmptyString => None
        | String c' _ =>
            if Ascii.eqb c' "_" then None else parse_digits base acc s'
        end
      else
        match digit_value c with
        | Some d =>
            if d <? base then parse_digits base (acc * base + d) s' else None
        | None => None
        end
  end.

(** For base 16 an optional [0x] or [0X] follows the sign, and one
    underscore may follow that prefix. *)
Definition drop_base_prefix (base : Z) (s : string) : string :=
  match s with
  | String "0" (String x s') =>
      if (base =? 16) && (Ascii.eqb x "x" || Ascii.eqb x "X") then
        match s' with
        | String "_" s'' => s''
        | _ => s'
        end
      else s
  | _ => s
  end.

(** [int(s, base)] for a string: surrounding whitespace is dropped, then an
    optional sign, an optional base prefix and at least one digit must make
    up the whole string, which may not start with an underscore; anything
    else is a [ValueError]. *)
Definition int_of_str (base : Z) (s : string) : result Z :=
  let bad := Exn ValueError "invalid literal for int() with base %d: %r"
                 [PyInt base; PyStr s] in
  let t := strip s in
  let '(sign, body) :=
    match t with
    | String "-" r => (-1, r)
    | String "+" r => (1, r)
    | _ => (1, t)
    end in
  match drop_base_prefix base body with
  | EmptyString => Raise bad
  | String "_" _ => Raise bad
  | digits =>
      match parse_digits base 0 digits with
      | Some v => Ok (sign * v)
      | None => Raise bad
      end
  end.

(** [str(n)]: the decimal digits, after a minus sign when negative. *)
Definition str_of_int (n : Z) : string :=
  NilEmpty.string_of_int (Z.to_int n).

(** *** Lists, tuples, dictionaries and bytearrays *)

(** [l[i]] for [0 <= i] *)
Definition getitem {A : Type} (l : list A) (i : nat) : result A :=
  of_option (nth_error l i) (Exn IndexError "index out of range" []).

(** [d[k]] on a dictionary given by its items. *)
Fixpoint dict_get {K V : Type} (eqb : K -> K -> bool) (d : list (K * V))
  (k : K) : result V :=
  match d with
  | [] => raise KeyError EmptyString []
  | (k', v) :: d' => if eqb k k' then Ok v else dict_get eqb d' k
  end.

(** One element stored into a bytearray: an integer in [range(256)]. *)
Definition byte_of_int (n : Z) : result byte :=
  if (0 <=? n) && (n <? 256)
  then of_option (Byte.of_N (Z.to_N n))
         (Exn ValueError "byte must be in range(0, 256)" [])
  else raise ValueError "byte must be in range(0, 256)" [].

(** [bytearray(f(x) for x in l)]: the elements are produced and stored one
    after the other, so the first failure of either step is the one
    raised. *)
Fixpoint bytearray_of {A : Type} (f : A -> result Z) (l : list A)
  : result (list byte) :=
  match l with
  | [] => Ok []
  | x :: l' =>
      n <- f x ;; b <- byte_of_int n ;; bs <- bytearray_of f l' ;;
      Ok (b :: bs)
  end.

(** [bytearray(v)] for an object that is neither a string nor a
    bytearray: an integer gives that many zero bytes (memory permitting, and
    below the 2^63 that an index can hold), a tuple or list is copied
    element by element. *)
Definition bytearray (v : pyval) : result (list byte) :=
  let item x := of_option (as_int x)
                  (Exn TypeError "an integer is required" []) in
  match v with
  | PyInt n | NoDataOffset n =>
      if 2 ^ 63 <=? n then
        raise OverflowError "cannot fit 'int' into an index-sized integer" []
      else if n <? 0 then raise ValueError "negative count" []
      else Ok (repeat x00 (Z.to_nat n))
  | PyTuple items | PyList items => bytearray_of item items
  | _ => raise TypeError "%r object is not iterable" [v]
  end.

End Py.
Import Py.

#[local] Open Scope py_scope.

(** ** [mididings.setup]: the process-wide configuration *)

Module setup.

(** Modelled from the spec: the module [mididings.setup] is not part of the
    sources at hand.  [get_config('data_offset')] and
    [get_config('octave_offset')] read two integers, and [_in_portnames] and
    [_out_portnames] are the two ordered lists of declared port names. *)
Record config : Type := Config {
  data_offset : Z;
  octave_offset : Z;
  _in_portnames : list string;
  _out_portnames : list string
}.

End setup.
Import setup.

(** ** [mididings/util.py] *)

Module util.

(** [l.index(x)]: the position of the first element equal to [x]; a
    [ValueError] when there is none. *)
Fixpoint list_index (x : string) (l : list string) : result Z :=
  match l with
  | [] => raise ValueError "%r is not in list" [PyStr x]
  | y :: l' =>
      if String.eqb x y then Ok 0
      else i <- list_index x l' ;; Ok (i + 1)
  end.

(** [x in l] *)
Definition list_mem (x : string) (l : list string) : bool :=
  existsb (String.eqb x) l.

Definition _NOTE_NUMBERS : list (string * Z) :=
  [ ("c", 0);
    ("c#", 1); ("db", 1);
    ("d", 2);
    ("d#", 3); ("eb", 3);
    ("e", 4);
    ("f", 5);
    ("f#", 6); ("gb", 6);
    ("g", 7);
    ("g#", 8); ("ab", 8);
    ("a", 9);
    ("a#", 10); ("bb", 10);
    ("b", 11) ].

Definition _NOTE_NAMES : list (Z * string) :=
  [ (0, "c"); (1, "c#"); (2, "d"); (3, "d#"); (4, "e"); (5, "f");
    (6, "f#"); (7, "g"); (8, "g#"); (9, "a"); (10, "a#"); (11, "b") ].

(** The value of [i] after
    [for i in range(len(note)): if note[i].isdigit() or note[i] == '-': break]:
    the first position holding a digit or a minus sign, the last position
    when there is none, and no value at all for the empty string. *)
Fixpoint loop_index (note : string) (i : nat) : option nat :=
  match note with
  | EmptyString => None
  | String c rest =>
      if isdigit c || Ascii.eqb c "-" then Some i
      else match rest with
           | EmptyString => Some i
           | _ => loop_index rest (S i)
           end
  end.

(** [0 <= r < end] with [end] 128, or 129 when [allow_end]. *)
Definition below_end (allow_end : bool) (r : Z) : bool :=
  let end_ := if allow_end then 129 else 128 in
  (0 <=? r) && (r <? end_).

Definition note_number (cfg : config) (note : pyval) (allow_end : bool)
  : result pyval :=
  r <- match note with
       | PyInt _ | NoDataOffset _ => Ok note
       | PyStr s =>
           let note := lower s in
           let i := loop_index note 0 in
           try_except
             (i <- of_option i
                    (Exn UnboundLocalError
                       "local variable 'i' referenced before assignment" []) ;;
              let name := slice_to i note in
              octave <- int_of_str 10 (slice_from i note) ;;
              n <- dict_get String.eqb _NOTE_NUMBERS name ;;
              Ok (PyInt (n + (octave + octave_offset cfg) * 12)))
             (fun _ => raise ValueError "invalid note name '%s'" [PyStr note])
       | _ => raise TypeError "note must be an integer or string" []
       end ;;
  match as_int r with
  | Some z =>
      if below_end allow_end z then Ok r
      else raise ValueError "note number %d is out of range" [r]
  | None => raise TypeError "note must be an integer or string" []
  end.

Definition note_limit (cfg : config) (note : pyval) : result pyval :=
  note_number cfg note true.

(** [n + 1] for an integer [n] *)
Definition succ (n : pyval) : result pyval :=
  match as_int n with
  | Some z => Ok (PyInt (z + 1))
  | None => raise TypeError "unsupported operand type(s) for +" [n]
  end.

Definition note_range (cfg : config) (notes : pyval)
  : result (pyval * pyval) :=
  try_except
    (n <- note_number cfg notes false ;; m <- succ n ;; Ok (n, m))
    (fun _ =>
       try_except_only [ValueError; IndexError]
         match notes with
         | PyTuple items =>
             a <- getitem items 0 ;; lower <- note_limit cfg a ;;
             b <- getitem items 1 ;; upper <- note_limit cfg b ;;
             Ok (lower, upper)
         | PyStr s =>
             let nn := split1 ":" s in
             n0 <- getitem nn 0 ;;
             lower <- match n0 with
                      | EmptyString => Ok (PyInt 0)
                      | _ => note_limit cfg (PyStr n0)
                      end ;;
             n1 <- getitem nn 1 ;;
             upper <- match n1 with
                      | EmptyString => Ok (PyInt 0)
                      | _ => note_limit cfg (PyStr n1)
                      end ;;
             Ok (lower, upper)
         | _ => raise TypeError
                  "note range must be a tuple of integers or a string" []
         end
         (fun _ => Raise (format_exn ValueError "invalid note range %r" notes))).

Definition note_name (cfg : config) (note : pyval) : result string :=
  match as_int note with
  | None => raise TypeError "note must be an integer" []
  | Some n =>
      name <- dict_get Z.eqb _NOTE_NAMES (n mod 12) ;;
      Ok (name ++ str_of_int (n / 12 - octave_offset cfg))%string
  end.

Definition ctrl_value (value : pyval) (allow_end : bool) : result pyval :=
  match as_int value with
  | None => raise TypeError "controller value must be an integer" []
  | Some z =>
      if below_end allow_end z then Ok value
      else raise ValueError "controller value %d is out of range" [value]
  end.

Definition ctrl_limit (value : pyval) : result pyval :=
  ctrl_value value true.

Definition ctrl_range (value : pyval) : result (pyval * pyval) :=
  r <- try_except
         (n <- ctrl_value value false ;; m <- succ n ;; Ok (Some (n, m)))
         (fun _ =>
            match value with
            | PyTuple [a; b] =>
                lower <- ctrl_limit a ;; upper <- ctrl_limit b ;;
                Ok (Some (lower, upper))
            | _ => Ok None
            end) ;;
  match r with
  | Some range => Ok range
  | None =>
      Raise (format_exn ValueError "invalid controller value range %r" value)
  end.

Definition velocity_value (velocity : pyval) (allow_end : bool)
  : result pyval :=
  match as_int velocity with
  | None => raise TypeError "velocity must be an integer" []
  | Some z =>
      if below_end allow_end z then Ok velocity
      else raise ValueError "velocity %d is out of range" [velocity]
  end.

Definition velocity_limit (velocity : pyval) : result pyval :=
  velocity_value velocity true.

Definition velocity_range (velocity : pyval) : result (pyval * pyval) :=
  r <- try_except
         (n <- velocity_value velocity false ;; m <- succ n ;;
          Ok (Some (n, m)))
         (fun _ =>
            match velocity with
            | PyTuple [a; b] =>
                lower <- velocity_limit a ;; upper <- velocity_limit b ;;
                Ok (Some (lower, upper))
            | _ => Ok None
            end) ;;
  match r with
  | Some range => Ok range
  | None => Raise (format_exn ValueError "invalid velocity range %r" velocity)
  end.

(** The string [', \f\n\r\t\v'] *)
Definition delimiters : string :=
  String "," (String " " (String "012" (String "010" (String "013"
    (String "009" (String "011" EmptyString)))))).

(** [c in s] for a single character [c] *)
Definition contains (s : string) (c : ascii) : bool :=
  existsb (Ascii.eqb c) (list_ascii_of_string s).

(** The three readings of a string in [sysex_to_bytearray]. *)
Definition hex_pairs (sysex : string) : result (list byte) :=
  bytearray_of (int_of_str 16) (pairs sysex).

Definition hex_tokens (sep : ascii) (sysex : string) : result (list byte) :=
  bytearray_of (int_of_str 16) (split sep sysex).

Definition char_codes (sysex : string) : result (list byte) :=
  bytearray_of (fun c => Ok (ord c)) (list_ascii_of_string sysex).

Definition sysex_to_bytearray (sysex : pyval) : result (list byte) :=
  match sysex with
  | PyStr s =>
      if String.prefix "F0" s || String.prefix "f0" s then
        match String.get 2 s with
        | None => hex_pairs s
        | Some c =>
            if negb (contains delimiters c) then hex_pairs s
            else hex_tokens c s
        end
      else char_codes s
  | PyByteArray b => Ok b
  | _ => bytearray sysex
  end.

(** [for c in sysex[1:-1]: if c > 0x7f: raise ...] *)
Fixpoint check_data_bytes (l : list byte) : result unit :=
  match l with
  | [] => Ok tt
  | c :: l' =>
      if (127 <? Byte.to_N c)%N
      then raise ValueError "sysex data byte %#x is out of range"
             [PyInt (Z.of_N (Byte.to_N c))]
      else check_data_bytes l'
  end.

Definition sysex_data (sysex : pyval) (allow_partial : bool)
  : result (list byte) :=
  sysex <- sysex_to_bytearray sysex ;;
  if (List.length sysex <? 2)%nat then
    raise ValueError "sysex too short" []
  else
    first <- getitem sysex 0 ;;
    if negb (Byte.eqb first xf0) then
      raise ValueError "sysex doesn't start with F0" []
    else
      last <- getitem sysex (List.length sysex - 1) ;;
      if negb (Byte.eqb last xf7) && negb allow_partial then
        raise ValueError "sysex doesn't end with F7" []
      else
        _ <- check_data_bytes (removelast (tl sysex)) ;;
        Ok sysex.

(** [offset(n)]: [n + data_offset].  Adding to an [int] subclass gives a
    plain [int]; a non-integer operand is a [TypeError]. *)
Definition offset (cfg : config) (n : pyval) : result pyval :=
  match as_int n with
  | Some z => Ok (PyInt (z + data_offset cfg))
  | None => raise TypeError "unsupported operand type(s) for +" [n]
  end.

(** [actual(n)]: [int(n)] for a [NoDataOffset], [n - data_offset]
    otherwise. *)
Definition actual (cfg : config) (n : pyval) : result pyval :=
  match n with
  | NoDataOffset z => Ok (PyInt z)
  | PyInt z => Ok (PyInt (z - data_offset cfg))
  | _ => raise TypeError "unsupported operand type(s) for -" [n]
  end.

(** [a < 0] on the result of [actual], which is an integer. *)
Definition is_negative (v : pyval) : bool :=
  match as_int v with
  | Some z => z <? 0
  | None => false
  end.

Definition port_number (cfg : config) (port : pyval) : result pyval :=
  match port with
  | PyInt _ | NoDataOffset _ =>
      a <- actual cfg port ;;
      if is_negative a
      then raise ValueError "invalid port number %d" [port]
      else Ok port
  | PyStr name =>
      let in_ports := _in_portnames cfg in
      let out_ports := _out_portnames cfg in
      let unambiguous :=
        if list_mem name in_ports then
          i <- list_index name in_ports ;; offset cfg (PyInt i)
        else if list_mem name out_ports then
          i <- list_index name out_ports ;; offset cfg (PyInt i)
        else raise ValueError "invalid port name '%s'" [port] in
      if list_mem name in_ports && list_mem name out_ports then
        i <- list_index name in_ports ;;
        j <- list_index name out_ports ;;
        if negb (i =? j)
        then raise ValueError "port name '%s' is ambiguous" [port]
        else unambiguous
      else unambiguous
  | _ => raise TypeError "port must be an integer or string" []
  end.

(** Whether a value can be a dictionary key: lists and bytearrays cannot,
    a tuple can when its items can. *)
Fixpoint hashable (v : pyval) : bool :=
  match v with
  | PyTuple items => forallb hashable items
  | PyList _ | PyByteArray _ => false
  | _ => true
  end.

Definition tonic_note_number (key : pyval) : result Z :=
  match key with
  | PyStr name => dict_get String.eqb _NOTE_NUMBERS name
  | _ =>
      if hashable key then raise KeyError "%r" [key]
      else raise TypeError "unhashable type" [key]
  end.

Definition _CONTROLLER_NAMES : list (Z * string) :=
  [ (0, "Bank select (MSB)");
    (1, "Modulation");
    (6, "Data entry (MSB)");
    (7, "Volume");
    (10, "Pan");
    (11, "Expression");
    (32, "Bank select (LSB)");
    (38, "Data entry (LSB)");
    (64, "Sustain");
    (65, "Portamento");
    (66, "Sostenuto");
    (67, "Soft pedal");
    (68, "Legato pedal");
    (98, "NRPN (LSB)");
    (99, "NRPN (MSB)");
    (100, "RPN (LSB)");
    (101, "RPN (MSB)");
    (121, "Reset all controllers");
    (123, "All notes off") ].

(** [k in d] on a dictionary given by its items. *)
Definition dict_mem {K V : Type} (eqb : K -> K -> bool) (d : list (K * V))
  (k : K) : bool :=
  existsb (fun kv => eqb k (fst kv)) d.

(** The result is [None] for a number without a description, and for a
    string, a tuple or [None], which are equal to no key.  (A float equal
    to a key would be found as well; floats are not among the values
    modelled.) *)
Definition controller_name (ctrl : pyval) : result (option string) :=
  match as_int ctrl with
  | Some n =>
      if dict_mem Z.eqb _CONTROLLER_NAMES n
      then s <- dict_get Z.eqb _CONTROLLER_NAMES n ;; Ok (Some s)
      else Ok None
  | None =>
      if hashable ctrl then Ok None
      else raise TypeError "unhashable type" [ctrl]
  end.

(** [lo <= a < hi] for an integer [a] *)
Definition in_range (lo : Z) (a : pyval) (hi : Z) : bool :=
  match as_int a with
  | Some z => (lo <=? z) && (z <? hi)
  | None => false
  end.

Definition channel_number (cfg : config) (channel : pyval) : result pyval :=
  match as_int channel with
  | None => raise TypeError "channel must be an integer" []
  | Some _ =>
      a <- actual cfg channel ;;
      if negb (in_range 0 a 16)
      then raise ValueError "channel number %d is out of range" [channel]
      else Ok channel
  end.

Definition program_number (cfg : config) (program : pyval) : result pyval :=
  match as_int program with
  | None => raise TypeError "program must be an integer" []
  | Some _ =>
      a <- actual cfg program ;;
      if negb (in_range 0 a 128)
      then raise ValueError "program number %d is out of range" [program]
      else Ok program
  end.

Definition ctrl_number (ctrl : pyval) : result pyval :=
  match as_int ctrl with
  | None => raise TypeError "controller must be an integer" []
  | Some _ =>
      if negb (in_range 0 ctrl 128)
      then raise ValueError "controller number %d is out of range" [ctrl]
      else Ok ctrl
  end.

Definition scene_number (cfg : config) (scene : pyval) : result pyval :=
  match as_int scene with
  | None => raise TypeError "scene number must be an integer" []
  | Some _ =>
      a <- actual cfg scene ;;
      if is_negative a
      then raise ValueError "scene number %d is out of range" [scene]
      else Ok scene
  end.

Definition subscene_number (cfg : config) (subscene : pyval)
  : result pyval :=
  match as_int subscene with
  | None => raise TypeError "subscene number must be an integer" []
  | Some _ =>
      a <- actual cfg subscene ;;
      if is_negative a
      then raise ValueError "subscene number %d is out of range" [subscene]
      else Ok subscene
  end.

(** [for c in manid: if c > 0x7f: raise ...] *)
Fixpoint check_manufacturer_bytes (l : list byte) : result unit :=
  match l with
  | [] => Ok tt
  | c :: l' =>
      if (127 <? Byte.to_N c)%N
      then raise ValueError "manufacturer id byte %#x is out of range"
             [PyInt (Z.of_N (Byte.to_N c))]
      else check_manufacturer_bytes l'
  end.

(** [issequence] stands for [_misc.issequence(x, True)], a function of
    [mididings.misc] that is not part of the sources at hand; the function
    is modelled for any such test. *)
Definition sysex_manufacturer (issequence : pyval -> bool)
  (manufacturer : pyval) : result (list byte) :=
  let manufacturer :=
    if negb (issequence manufacturer) then PyList [manufacturer]
    else manufacturer in
  manid <- sysex_to_bytearray manufacturer ;;
  if negb ((List.length manid =? 1)%nat || (List.length manid =? 3)%nat) then
    raise ValueError "manufacturer id must be either one or three bytes" []
  else
    bad_start <- (if (List.length manid =? 3)%nat
                  then first <- getitem manid 0 ;;
                       Ok (negb (Byte.eqb first x00))
                  else Ok false) ;;
    if bad_start then
      raise ValueError "three-byte manufacturer id must start with 0x00" []
    else
      _ <- check_manufacturer_bytes manid ;;
      Ok manid.

End util.

(** ** [mididings/event.py] *)

Module event.

Module Types.
Definition NOTEON : Z := Z.shiftl 1 0.
Definition NOTEOFF : Z := Z.shiftl 1 1.
Definition NOTE : Z := Z.lor NOTEON NOTEOFF.
Definition CONTROLLER : Z := Z.shiftl 1 2.
Definition PITCHBEND : Z := Z.shiftl 1 3.
Definition PGMCHANGE : Z := Z.shiftl 1 4.
End Types.

(** Modelled from the spec: the base class [_mididings.MidiEvent] belongs to
    the engine and is not part of the sources at hand.  A record has a type
    tag, which is a bit mask, port and channel fields and the two integer
    payload slots [data1] and [data2]. *)
Record MidiEvent : Type := mkMidiEvent {
  type : Z;
  port : Z;
  channel : Z;
  data1 : Z;
  data2 : Z
}.

(** [getattr(self, data)] and [setattr(self, data, value)] for the two slot
    names the property table uses. *)
Definition getattr (self : MidiEvent) (data : string) : result Z :=
  if String.eqb data "data1" then Ok (data1 self)
  else if String.eqb data "data2" then Ok (data2 self)
  else raise AttributeError "object has no attribute '%s'" [PyStr data].

Definition setattr (self : MidiEvent) (data : string) (value : Z)
  : result MidiEvent :=
  if String.eqb data "data1" then
    Ok (mkMidiEvent (type self) (port self) (channel self) value (data2 self))
  else if String.eqb data "data2" then
    Ok (mkMidiEvent (type self) (port self) (channel self) (data1 self) value)
  else raise AttributeError "object has no attribute '%s'" [PyStr data].

(** A computation that may [print]: the lines written to standard output,
    in order, and what the computation returns or raises. *)
Definition io (A : Type) : Type := list string * result A.

Definition print (line : string) : io unit := ([line], Ok tt).

Definition io_ret {A : Type} (r : result A) : io A := ([], r).

Definition io_bind {A B : Type} (m : io A) (k : A -> io B) : io B :=
  match m with
  | (out, Ok a) => let '(out', r) := k a in ((out ++ out')%list, r)
  | (out, Raise e) => (out, Raise e)
  end.

(** [if not self.type & typ: print "midi event attribute error"] *)
Definition check_type (self : MidiEvent) (typ : Z) : io unit :=
  if Z.land (type self) typ =? 0
  then print "midi event attribute error"
  else io_ret (Ok tt).

Definition getter (typ : Z) (data : string) (self : MidiEvent) : io Z :=
  io_bind (check_type self typ) (fun _ => io_ret (getattr self data)).

Definition setter (typ : Z) (data : string) (self : MidiEvent) (value : Z)
  : io MidiEvent :=
  io_bind (check_type self typ) (fun _ => io_ret (setattr self data value)).

Definition make_get_set (typ : Z) (data : string)
  : (MidiEvent -> io Z) * (MidiEvent -> Z -> io MidiEvent) :=
  (getter typ data, setter typ data).

(** The four properties of [_MidiEventEx]. *)
Inductive attribute : Type := note | velocity | param | value.

(** The arguments [make_get_set] is called with for each property. *)
Definition required_type (a : attribute) : Z :=
  match a with
  | note | velocity => Types.NOTE
  | param => Types.CONTROLLER
  | value => Z.lor (Z.lor Types.CONTROLLER Types.PITCHBEND) Types.PGMCHANGE
  end.

Definition slot (a : attribute) : string :=
  match a with
  | note | param => "data1"
  | velocity | value => "data2"
  end.

Definition property (a : attribute)
  : (MidiEvent -> io Z) * (MidiEvent -> Z -> io MidiEvent) :=
  make_get_set (required_type a) (slot a).

(** [self.a] and [self.a = v] *)
Definition get (a : attribute) (self : MidiEvent) : io Z :=
  fst (property a) self.

Definition set (a : attribute) (self : MidiEvent) (v : Z) : io MidiEvent :=
  snd (property a) self v.

End event.

Import util.

(** ** Notions used to state the properties *)

(** [x] occurs in [l] and [i] is the position of its first occurrence. *)
Definition first_at (x : string) (l : list string) (i : nat) : Prop :=
  nth_error l i = Some x /\ forall k, (k < i)%nat -> nth_error l k <> Some x.

(** No character of [s] is a digit or a minus sign. *)
Fixpoint no_break (s : string) : bool :=
  match s with
  | EmptyString => true
  | String c s' => negb (isdigit c || Ascii.eqb c "-") && no_break s'
  end.

(** [v] is an integer from 0 to 128, the values a range boundary can
    take. *)
Definition is_limit (v : pyval) : Prop :=
  exists z, as_int v = Some z /\ 0 <= z <= 128.

(** [range] is the pair [(n, n + 1)] for the integer [n], which is below
    128. *)
Definition is_single (n : pyval) (range : result (pyval * pyval)) : Prop :=
  exists z, as_int n = Some z /\ 0 <= z < 128
            /\ range = Ok (n, PyInt (z + 1)).

(** A byte below 0x80. *)
Definition data_byte (c : byte) : Prop := (Byte.to_N c <= 127)%N.

(** [b] is a framed message: 0xF0, data bytes, and one closing byte, which
    is 0xF7 unless a partial message is allowed. *)
Definition framed (allow_partial : bool) (b : list byte) : Prop :=
  exists data closing,
    b = xf0 :: data ++ [closing]
    /\ Forall data_byte data
    /\ (allow_partial = false -> closing = xf7).

(** The range check that ends [note_number], on the number [r]. *)
Definition checked (allow_end : bool) (r : Z) : result pyval :=
  if below_end allow_end r then Ok (PyInt r)
  else raise ValueError "note number %d is out of range" [PyInt r].

(** [r] is what one side of a range string stands for: 0 when the side
    is empty, the note it names otherwise, 128 included. *)
Definition range_side (cfg : config) (side : string) (r : pyval) : Prop :=
  (side = EmptyString /\ r = PyInt 0)
  \/ (side <> EmptyString /\ note_limit cfg (PyStr side) = Ok r).

(** The range specifications made of integers only, with the pair each
    stands for: a single value from 0 to 127, or a tuple of two boundaries
    from 0 to 128. *)
Definition range_spec (v lo hi : pyval) : Prop :=
  (exists z, as_int v = Some z /\ 0 <= z < 128
             /\ lo = v /\ hi = PyInt (z + 1))
  \/ (exists a b za zb,
        v = PyTuple [a; b] /\ as_int a = Some za /\ as_int b = Some zb
        /\ 0 <= za <= 128 /\ 0 <= zb <= 128 /\ lo = a /\ hi = b).

(** A byte written as two hexadecimal digits, in upper case. *)
Definition hex_digit (n : N) : ascii :=
  ascii_of_N (if (n <? 10)%N then 48 + n else 55 + n).

Definition hex2 (c : byte) : string :=
  String (hex_digit (Byte.to_N c / 16))
    (String (hex_digit (Byte.to_N c mod 16)) EmptyString).

(** Bytes written one after the other, as in "F07EF7", and with a space
    between them, as in "F0 7E F7". *)
Fixpoint hex_joined (bs : list byte) : string :=
  match bs with
  | [] => EmptyString
  | c :: bs' => hex2 c ++ hex_joined bs'
  end.

Fixpoint hex_spaced (bs : list byte) : string :=
  match bs with
  | [] => EmptyString
  | [c] => hex2 c
  | c :: bs' => hex2 c ++ String " " (hex_spaced bs')
  end.

(** A byte written as two hexadecimal digits, with small letters or with
    capital letters. *)
Definition hex_digit_as (small : bool) (n : N) : ascii :=
  ascii_of_N (if (n <? 10)%N then 48 + n
              else if small then 87 + n else 55 + n).

Definition hex_byte (w : bool * byte) : string :=
  String (hex_digit_as (fst w) (Byte.to_N (snd w) / 16))
    (String (hex_digit_as (fst w) (Byte.to_N (snd w) mod 16)) EmptyString).

(** Bytes written in hexadecimal, each with letters of its own case, with
    [sep] between one byte and the next. *)
Fixpoint hex_text (sep : string) (ws : list (bool * byte)) : string :=
  match ws with
  | [] => EmptyString
  | [w] => hex_byte w
  | w :: ws' => hex_byte w ++ sep ++ hex_text sep ws'
  end.

(** A configuration that only sets the data offset. *)
Definition with_data_offset (d : Z) : config := Config d 0 [] [].

(** * Properties *)

(** ** Offset translation *)

Section Offsets.

Variable cfg : config.

Lemma offset_int (n : Z) :
  offset cfg (PyInt n) = Ok (PyInt (n + data_offset cfg)).
Proof. reflexivity. Qed.

Lemma actual_int (n : Z) :
  actual cfg (PyInt n) = Ok (PyInt (n - data_offset cfg)).
Proof. reflexivity. Qed.

Lemma actual_NoDataOffset (n : Z) :
  actual cfg (NoDataOffset n) = Ok (PyInt n).
Proof. reflexivity. Qed.

End Offsets.

(** C4, evaluated on the code: [offset] has no case for [NoDataOffset].  With
    a data offset of 1, [offset(NoDataOffset(5))] is the plain integer 6, not
    5; in general the data offset is added to a [NoDataOffset] exactly as it
    is to a plain integer. *)
Theorem offset_adds_to_NoDataOffset :
  offset (with_data_offset 1) (NoDataOffset 5) = Ok (PyInt 6)
  /\ forall cfg n,
       offset cfg (NoDataOffset n) = Ok (PyInt (n + data_offset cfg))
       /\ offset cfg (PyInt n) = Ok (PyInt (n + data_offset cfg)).
Proof. split; [reflexivity | intros cfg n; split; reflexivity]. Qed.

(** C5 as stated fails: the two translations are not inverse to each other on
    every integer value.  With a data offset of 1, [actual(NoDataOffset(5))]
    is 5 and [offset(5)] is 6. *)
Lemma offset_actual_not_inverse :
  ~ (forall (cfg : config) (n : pyval),
       as_int n <> None ->
       (exists p r, offset cfg n = Ok p /\ actual cfg p = Ok r
                    /\ as_int r = as_int n)
       /\ (exists a r, actual cfg n = Ok a /\ offset cfg a = Ok r
                       /\ as_int r = as_int n)).
Proof.
  intros H.
  destruct (H (with_data_offset 1) (NoDataOffset 5)) as [_ (a & r & Ha & Hr & E)].
  - discriminate.
  - cbv in Ha. injection Ha as <-. cbv in Hr. injection Hr as <-.
    discriminate E.
Qed.

(** C5, amended: on every plain integer [n] and for every data offset,
    [actual(offset(n))] and [offset(actual(n))] both give [n] back.  On a
    [NoDataOffset], [actual] subtracts nothing, so [offset(actual(n))] is [n]
    plus the data offset. *)
Theorem offset_actual_inverse (cfg : config) (n : Z) :
  (p <- offset cfg (PyInt n) ;; actual cfg p) = Ok (PyInt n)
  /\ (a <- actual cfg (PyInt n) ;; offset cfg a) = Ok (PyInt n)
  /\ (a <- actual cfg (NoDataOffset n) ;; offset cfg a)
     = Ok (PyInt (n + data_offset cfg)).
Proof.
  repeat split; simpl; unfold offset; simpl; do 2 f_equal; lia.
Qed.

(** ** Port numbers *)

Lemma list_mem_In (x : string) (l : list string) :
  list_mem x l = true <-> In x l.
Proof.
  unfold list_mem. rewrite existsb_exists. split.
  - intros (y & Hy & E). apply String.eqb_eq in E. now subst.
  - intros Hx. exists x. split; [assumption | apply String.eqb_refl].
Qed.

Lemma list_mem_not_In (x : string) (l : list string) :
  ~ In x l -> list_mem x l = false.
Proof.
  intros H. destruct (list_mem x l) eqn:E; [|reflexivity].
  apply list_mem_In in E. contradiction.
Qed.

Lemma first_at_In (x : string) (l : list string) (i : nat) :
  first_at x l i -> In x l.
Proof. intros [H _]. eapply nth_error_In; eassumption. Qed.

Lemma list_index_first_at (x : string) (l : list string) :
  forall i, first_at x l i -> list_index x l = Ok (Z.of_nat i).
Proof.
  induction l as [|y l IH]; intros i [Hi Hlt].
  - destruct i; discriminate.
  - simpl. destruct (String.eqb_spec x y) as [->|Hne].
    + destruct i as [|i]; [reflexivity|].
      exfalso. apply (Hlt 0%nat); [lia | reflexivity].
    + destruct i as [|i].
      * simpl in Hi. congruence.
      * rewrite (IH i).
        -- simpl. f_equal. lia.
        -- split; [exact Hi|].
           intros k Hk. apply (Hlt (S k)). lia.
Qed.

Lemma first_at_unique (x : string) (l : list string) (i j : nat) :
  first_at x l i -> first_at x l j -> i = j.
Proof.
  intros [Hi Hli] [Hj Hlj].
  destruct (Nat.lt_trichotomy i j) as [H|[H|H]]; [|assumption|].
  - exfalso. exact (Hlj i H Hi).
  - exfalso. exact (Hli j H Hj).
Qed.

(** C10 as stated fails on the integers tagged [NoDataOffset]: with a data
    offset of 1, [port_number(NoDataOffset(0))] returns its argument although
    0 minus the offset is negative. *)
Lemma port_number_NoDataOffset_ignores_offset :
  ~ (forall (cfg : config) (port : pyval) (n : Z),
       as_int port = Some n ->
       (port_number cfg port = Ok port <-> 0 <= n - data_offset cfg)).
Proof.
  intros H.
  destruct (H (with_data_offset 1) (NoDataOffset 0) 0 eq_refl) as [H1 _].
  specialize (H1 eq_refl). simpl in H1. lia.
Qed.

(** C10, amended: whatever the port-name lists are, [port_number] returns a
    plain integer [n] unchanged exactly when [n] minus the data offset is not
    negative, and returns an integer tagged [NoDataOffset] unchanged exactly
    when the integer itself is not negative; otherwise it raises the
    [ValueError] "invalid port number" carrying the argument.  No upper bound
    is checked. *)
Theorem port_number_int (cfg : config) (n : Z) :
  (port_number cfg (PyInt n) = Ok (PyInt n) <-> 0 <= n - data_offset cfg)
  /\ (port_number cfg (PyInt n)
        = Raise (Exn ValueError "invalid port number %d" [PyInt n])
      <-> n - data_offset cfg < 0)
  /\ (port_number cfg (NoDataOffset n) = Ok (NoDataOffset n) <-> 0 <= n)
  /\ (port_number cfg (NoDataOffset n)
        = Raise (Exn ValueError "invalid port number %d" [NoDataOffset n])
      <-> n < 0).
Proof.
  unfold port_number, actual, is_negative, raise. simpl.
  destruct (Z.ltb_spec (n - data_offset cfg) 0);
    destruct (Z.ltb_spec n 0);
    repeat split; intros; try discriminate; try reflexivity; lia.
Qed.

Lemma port_number_int_witness :
  port_number (Config 1 0 ["in"] ["out"]) (PyInt 1000) = Ok (PyInt 1000)
  /\ port_number (with_data_offset 1) (PyInt 0)
     = Raise (Exn ValueError "invalid port number %d" [PyInt 0]).
Proof.
  split.
  - apply (proj1 (port_number_int (Config 1 0 ["in"] ["out"]) 1000)).
    simpl. lia.
  - apply (proj1 (proj2 (port_number_int (with_data_offset 1) 0))).
    simpl. lia.
Defined.

(** C2 as stated fails: a name that is at the same position in both lists is
    not an error.  With ["a"] as the only input port and the only output
    port, [port_number("a")] returns 0 plus the data offset. *)
Lemma port_number_same_index_not_ambiguous :
  ~ (forall (cfg : config) (name : string) (i : nat),
       first_at name (_in_portnames cfg) i ->
       first_at name (_out_portnames cfg) i ->
       exists e, port_number cfg (PyStr name) = Raise e).
Proof.
  intros H.
  destruct (H (Config 0 0 ["a"] ["a"]) "a" 0%nat) as [e He].
  - split; [reflexivity | intros k Hk; lia].
  - split; [reflexivity | intros k Hk; lia].
  - discriminate He.
Qed.

(** C2, amended: a name that occurs in exactly one of the two lists resolves
    to its first position in that list plus the data offset; a name whose
    first positions in the two lists differ raises the [ValueError] "port
    name is ambiguous"; a name whose first position is the same in both
    lists resolves to that position plus the data offset; a name in neither
    list raises the [ValueError] "invalid port name". *)
Theorem port_number_name (cfg : config) (name : string) :
  let ins := _in_portnames cfg in
  let outs := _out_portnames cfg in
  let found (i : nat) := Ok (PyInt (Z.of_nat i + data_offset cfg)) in
  (forall i, first_at name ins i -> ~ In name outs ->
             port_number cfg (PyStr name) = found i)
  /\ (forall j, ~ In name ins -> first_at name outs j ->
                port_number cfg (PyStr name) = found j)
  /\ (forall i j, first_at name ins i -> first_at name outs j -> i <> j ->
                  port_number cfg (PyStr name)
                  = Raise (Exn ValueError "port name '%s' is ambiguous"
                             [PyStr name]))
  /\ (forall i, first_at name ins i -> first_at name outs i ->
                port_number cfg (PyStr name) = found i)
  /\ (~ In name ins -> ~ In name outs ->
      port_number cfg (PyStr name)
      = Raise (Exn ValueError "invalid port name '%s'" [PyStr name])).
Proof.
  intros ins outs found. unfold port_number. fold ins outs.
  repeat split.
  - intros i Hi Hout.
    rewrite (proj2 (list_mem_In name ins) (first_at_In _ _ _ Hi)).
    rewrite (list_mem_not_In _ _ Hout). simpl.
    now rewrite (list_index_first_at _ _ _ Hi).
  - intros j Hin Hj.
    rewrite (list_mem_not_In _ _ Hin).
    rewrite (proj2 (list_mem_In name outs) (first_at_In _ _ _ Hj)). simpl.
    now rewrite (list_index_first_at _ _ _ Hj).
  - intros i j Hi Hj Hne.
    rewrite (proj2 (list_mem_In name ins) (first_at_In _ _ _ Hi)).
    rewrite (proj2 (list_mem_In name outs) (first_at_In _ _ _ Hj)). simpl.
    rewrite (list_index_first_at _ _ _ Hi), (list_index_first_at _ _ _ Hj).
    simpl. destruct (Z.eqb_spec (Z.of_nat i) (Z.of_nat j)); [lia|reflexivity].
  - intros i Hi Hj.
    rewrite (proj2 (list_mem_In name ins) (first_at_In _ _ _ Hi)).
    rewrite (proj2 (list_mem_In name outs) (first_at_In _ _ _ Hj)). simpl.
    rewrite (list_index_first_at _ _ _ Hi), (list_index_first_at _ _ _ Hj).
    simpl. now rewrite Z.eqb_refl.
  - intros Hin Hout.
    now rewrite (list_mem_not_In _ _ Hin), (list_mem_not_In _ _ Hout).
Qed.

(** The port "synth" is the third output port and no input port; with a
    data offset of 1 it is port 3. *)
Lemma port_number_name_witness :
  port_number (Config 1 0 ["keys"] ["a"; "b"; "synth"]) (PyStr "synth")
  = Ok (PyInt 3)
  /\ port_number (Config 1 0 ["x"; "y"] ["y"; "x"]) (PyStr "x")
     = Raise (Exn ValueError "port name '%s' is ambiguous" [PyStr "x"]).
Proof.
  split.
  - apply
      (proj1 (proj2 (port_number_name
                       (Config 1 0 ["keys"] ["a"; "b"; "synth"]) "synth"))
         2%nat).
    + simpl. intros [H|[]]. discriminate H.
    + split; [reflexivity|].
      intros [|[|k]] Hk; simpl; try discriminate. lia.
  - apply
      (proj1 (proj2 (proj2 (port_number_name
                              (Config 1 0 ["x"; "y"] ["y"; "x"]) "x")))
         0%nat 1%nat).
    + split; [reflexivity | intros k Hk; lia].
    + split; [reflexivity|].
      intros [|k] Hk; simpl; [discriminate | lia].
    + discriminate.
Defined.

(** ** Controller ranges *)

(** C3 as stated fails in its second half: the tuple [(0, 127)] is returned
    as it is, 127 is not turned into 128. *)
Lemma ctrl_range_tuple_not_widened :
  ctrl_range (PyTuple [PyInt 0; PyInt 127]) <> Ok (PyInt 0, PyInt 128).
Proof. discriminate. Qed.

(** C3, amended: [ctrl_range(7)] is [(7, 8)] and [ctrl_range((0, 127))] is
    [(0, 127)]. *)
Theorem ctrl_range_examples :
  ctrl_range (PyInt 7) = Ok (PyInt 7, PyInt 8)
  /\ ctrl_range (PyTuple [PyInt 0; PyInt 127]) = Ok (PyInt 0, PyInt 127).
Proof. split; reflexivity. Qed.

(** ** Event attributes *)

Section Attributes.

Import event.

Lemma getattr_slot (a : attribute) (ev : MidiEvent) :
  getattr ev (slot a)
  = Ok (match a with
        | note | param => data1 ev
        | velocity | value => data2 ev
        end).
Proof. destruct a; reflexivity. Qed.

(** C1 as stated fails in its second half: on a record whose type does not
    match, reading is not an error.  On a controller event with [data1 = 7],
    [note] prints the diagnostic line and returns 7. *)
Lemma get_on_other_type_does_not_raise :
  ~ (forall (ev : MidiEvent) (a : attribute),
       Z.land (type ev) (required_type a) = 0 ->
       (exists e, snd (get a ev) = Raise e)
       /\ (forall v, exists e, snd (set a ev v) = Raise e)).
Proof.
  intros H.
  destruct (H (mkMidiEvent Types.CONTROLLER 0 0 7 64) note eq_refl)
    as [[e He] _].
  discriminate He.
Qed.

(** C1, amended: for every record, attribute and value, setting the
    attribute and then getting it returns the value that was set, and the
    type tag is left as it was.  When the type tag intersects the mask of the
    attribute neither access prints anything.  When it does not, both
    accesses print the line "midi event attribute error" and still read or
    write the slot: nothing is raised. *)
Theorem attribute_set_get (ev : MidiEvent) (a : attribute) (v : Z) :
  (exists ev', snd (set a ev v) = Ok ev'
               /\ snd (get a ev') = Ok v
               /\ type ev' = type ev)
  /\ (Z.land (type ev) (required_type a) <> 0 ->
      fst (set a ev v) = [] /\ fst (get a ev) = [])
  /\ (Z.land (type ev) (required_type a) = 0 ->
      fst (set a ev v) = ["midi event attribute error"]
      /\ fst (get a ev) = ["midi event attribute error"]
      /\ snd (get a ev) = getattr ev (slot a)).
Proof.
  unfold get, set, property, make_get_set, getter, setter, check_type.
  simpl fst; simpl snd.
  split; [|split].
  - destruct a.
    all: eexists; split;
      [ destruct (Z.land (type ev) _ =? 0); reflexivity | ].
    all: simpl type;
      split; [ destruct (Z.land (type ev) _ =? 0); reflexivity | reflexivity ].
  - intros Hne. apply Z.eqb_neq in Hne. rewrite Hne. split; reflexivity.
  - intros He. apply Z.eqb_eq in He. rewrite He. repeat split; reflexivity.
Qed.

Lemma attribute_set_get_witness :
  fst (get note (mkMidiEvent Types.CONTROLLER 0 0 7 64))
  = ["midi event attribute error"]
  /\ fst (get param (mkMidiEvent Types.CONTROLLER 0 0 7 64)) = [].
Proof.
  split.
  - apply (proj2 (proj2 (attribute_set_get
                           (mkMidiEvent Types.CONTROLLER 0 0 7 64) note 0))).
    reflexivity.
  - apply (proj1 (proj2 (attribute_set_get
                           (mkMidiEvent Types.CONTROLLER 0 0 7 64) param 0))).
    discriminate.
Defined.

End Attributes.

(** ** Note names *)

Section Decimal.

Import NilEmpty.

(** The digits [str] writes are read back by [int] to the same number. *)
Lemma parse_digits_acc (d : uint) :
  forall acc : positive,
    parse_digits 10 (Zpos acc) (string_of_uint d)
    = Some (Zpos (Pos.of_uint_acc d acc)).
Proof.
  induction d; intros acc; cbn [string_of_uint parse_digits Pos.of_uint_acc];
    [reflexivity | ..].
  all: match goal with
       | |- context [Ascii.eqb ?c "_"] =>
           change (Ascii.eqb c "_") with false
       end; cbv iota.
  all: match goal with
       | |- context [digit_value ?c] =>
           let v := eval vm_compute in (digit_value c) in
           change (digit_value c) with v
       end; cbv iota beta.
  all: match goal with
       | |- context [?x <? 10] =>
           let v := eval vm_compute in (x <? 10) in
           change (x <? 10) with v
       end; cbv iota.
  all: rewrite <- IHd; f_equal; lia.
Qed.

Lemma parse_digits_uint (d : uint) :
  parse_digits 10 0 (string_of_uint d) = Some (Z.of_uint d).
Proof.
  unfold Z.of_uint.
  induction d; cbn [string_of_uint parse_digits Pos.of_uint];
    [reflexivity | ..].
  all: match goal with
       | |- context [Ascii.eqb ?c "_"] =>
           change (Ascii.eqb c "_") with false
       end; cbv iota.
  all: match goal with
       | |- context [digit_value ?c] =>
           let v := eval vm_compute in (digit_value c) in
           change (digit_value c) with v
       end; cbv iota beta.
  all: match goal with
       | |- context [?x <? 10] =>
           let v := eval vm_compute in (x <? 10) in
           change (x <? 10) with v
       end; cbv iota.
  all: try (exact IHd).
  all: match goal with
       | |- parse_digits 10 ?a _ = _ =>
           let v := eval vm_compute in a in change a with v
       end; rewrite parse_digits_acc; reflexivity.
Qed.

Lemma lower_digits (d : uint) :
  lower (string_of_uint d) = string_of_uint d.
Proof. induction d; simpl; [reflexivity | ..]; f_equal; assumption. Qed.

Lemma rstrip_digits (d : uint) :
  rstrip (string_of_uint d) = string_of_uint d.
Proof.
  induction d; cbn [string_of_uint rstrip]; [reflexivity | ..].
  all: rewrite IHd; destruct (string_of_uint d); reflexivity.
Qed.

Lemma strip_digits (d : uint) :
  strip (string_of_uint d) = string_of_uint d.
Proof.
  unfold strip.
  replace (lstrip (string_of_uint d)) with (string_of_uint d)
    by (destruct d; reflexivity).
  apply rstrip_digits.
Qed.

Lemma drop_base_prefix_10 (s : string) : drop_base_prefix 10 s = s.
Proof.
  unfold drop_base_prefix.
  destruct s as [|a [|x s']]; try reflexivity;
    destruct a as [[] [] [] [] [] [] [] []]; reflexivity.
Qed.

Lemma string_of_uint_nonempty (d : uint) :
  d <> Nil -> exists c s, string_of_uint d = String c s.
Proof. destruct d; [congruence | ..]; intros _; simpl; eauto. Qed.

Lemma int_of_str_digits (d : uint) :
  d <> Nil -> int_of_str 10 (string_of_uint d) = Ok (Z.of_uint d).
Proof.
  intros Hd. unfold int_of_str. rewrite strip_digits.
  assert (E : match string_of_uint d with
              | String "-" r => (-1, r)
              | String "+" r => (1, r)
              | _ => (1, string_of_uint d)
              end = (1, string_of_uint d))
    by (destruct d; reflexivity).
  rewrite E, drop_base_prefix_10.
  pose proof (parse_digits_uint d) as P.
  destruct d; [congruence | ..];
    cbn [string_of_uint] in *; cbv iota; rewrite P; f_equal; lia.
Qed.

Lemma int_of_str_minus_digits (d : uint) :
  d <> Nil ->
  int_of_str 10 (String "-" (string_of_uint d)) = Ok (- Z.of_uint d).
Proof.
  intros Hd. unfold int_of_str.
  assert (E : strip (String "-" (string_of_uint d))
              = String "-" (string_of_uint d)).
  { unfold strip. cbn [lstrip]. change (isspace "-") with false. cbv iota.
    cbn [rstrip]. rewrite rstrip_digits.
    destruct (string_of_uint d); reflexivity. }
  rewrite E, drop_base_prefix_10.
  pose proof (parse_digits_uint d) as P.
  destruct d; [congruence | ..];
    cbn [string_of_uint] in *; cbv iota; rewrite P; f_equal; lia.
Qed.

(** [int(str(k)) == k] *)
Lemma int_of_str_of_int (k : Z) : int_of_str 10 (str_of_int k) = Ok k.
Proof.
  unfold str_of_int. rewrite <- (DecimalZ.of_to k) at 2.
  destruct k as [|p|p]; [reflexivity | ..]; cbn [Z.to_int string_of_int Z.of_int].
  - apply int_of_str_digits, DecimalPos.Unsigned.to_uint_nonnil.
  - apply int_of_str_minus_digits, DecimalPos.Unsigned.to_uint_nonnil.
Qed.

Lemma lower_str_of_int (k : Z) : lower (str_of_int k) = str_of_int k.
Proof.
  unfold str_of_int.
  destruct (Z.to_int k); cbn [string_of_int lower].
  - apply lower_digits.
  - f_equal. apply lower_digits.
Qed.

(** [str(k)] starts with a digit or a minus sign. *)
Lemma str_of_int_head (k : Z) :
  exists c s, str_of_int k = String c s
              /\ (isdigit c || Ascii.eqb c "-")%bool = true.
Proof.
  unfold str_of_int.
  destruct k as [|p|p]; cbn [Z.to_int string_of_int].
  - exists "0"%char, EmptyString. split; reflexivity.
  - pose proof (DecimalPos.Unsigned.to_uint_nonnil p) as Hn.
    destruct (Pos.to_uint p); [congruence | ..]; simpl;
      eexists; eexists; (split; [reflexivity | reflexivity]).
  - exists "-"%char, (string_of_uint (Pos.to_uint p)). split; reflexivity.
Qed.

End Decimal.

Section NoteNames.

Variable cfg : config.

Lemma lower_app (a b : string) : lower (a ++ b) = (lower a ++ lower b)%string.
Proof. induction a; simpl; [reflexivity | now f_equal]. Qed.

Lemma slice_to_app (a b : string) : slice_to (String.length a) (a ++ b) = a.
Proof. induction a; simpl; [now destruct b | now f_equal]. Qed.

Lemma slice_from_app (a b : string) :
  slice_from (String.length a) (a ++ b) = b.
Proof. induction a; simpl; [now destruct b | assumption]. Qed.

Lemma loop_index_app (name : string) (c : ascii) (s : string) :
  no_break name = true ->
  (isdigit c || Ascii.eqb c "-")%bool = true ->
  forall i, loop_index (name ++ String c s) i
            = Some (i + String.length name)%nat.
Proof.
  intros Hname Hc. induction name as [|a name IH]; intros i; simpl.
  - rewrite Hc. f_equal. lia.
  - simpl in Hname. apply andb_true_iff in Hname as [Ha Hname].
    apply negb_true_iff in Ha. rewrite Ha.
    rewrite (IH Hname (S i)).
    destruct name; simpl; f_equal; lia.
Qed.

(** A name of the table followed by [str(k)] is read as that name in
    octave [k]. *)
Lemma note_number_name_octave (name : string) (v k : Z) (allow_end : bool) :
  lower name = name ->
  no_break name = true ->
  dict_get String.eqb _NOTE_NUMBERS name = Ok v ->
  below_end allow_end (v + (k + octave_offset cfg) * 12) = true ->
  note_number cfg (PyStr (name ++ str_of_int k)) allow_end
  = Ok (PyInt (v + (k + octave_offset cfg) * 12)).
Proof.
  intros Hlow Hnb Hv Hend. unfold note_number.
  rewrite lower_app, Hlow, lower_str_of_int.
  destruct (str_of_int_head k) as (c & s & Hs & Hc).
  rewrite Hs, (loop_index_app name c s Hnb Hc 0%nat), <- Hs.
  cbn [of_option bind Nat.add].
  rewrite slice_to_app, slice_from_app, int_of_str_of_int.
  cbn [bind]. rewrite Hv. cbn [bind try_except as_int]. now rewrite Hend.
Qed.

(** C6: for every integer [n] with [0 <= n < 128] (plain or tagged) and
    every octave offset, [note_name(n)] is a string and
    [note_number(note_name(n))] is [n]. *)
Theorem note_number_note_name (note : pyval) (n : Z) :
  as_int note = Some n ->
  0 <= n < 128 ->
  exists s, note_name cfg note = Ok s
            /\ note_number cfg (PyStr s) false = Ok (PyInt n).
Proof.
  intros Hint Hn. unfold note_name. rewrite Hint.
  set (k := n / 12 - octave_offset cfg).
  assert (Hr : n = n mod 12 + (k + octave_offset cfg) * 12)
    by (unfold k; pose proof (Z.div_mod n 12); lia).
  assert (Hend : below_end false (n mod 12 + (k + octave_offset cfg) * 12)
                 = true)
    by (rewrite <- Hr; unfold below_end;
        apply andb_true_iff; split; [apply Z.leb_le | apply Z.ltb_lt]; lia).
  pose proof (Z.mod_pos_bound n 12 eq_refl) as Hm.
  assert (E : PyInt n = PyInt (n mod 12 + (k + octave_offset cfg) * 12))
    by congruence.
  rewrite E. clearbody k. revert Hend. generalize (n mod 12) Hm.
  clear. intros m Hm Hend.
  assert (Hcases : m = 0 \/ m = 1 \/ m = 2 \/ m = 3 \/ m = 4 \/ m = 5
                   \/ m = 6 \/ m = 7 \/ m = 8 \/ m = 9 \/ m = 10 \/ m = 11)
    by lia.
  repeat destruct Hcases as [-> | Hcases]; try subst m;
    (eexists; split;
     [ reflexivity
     | apply note_number_name_octave; [reflexivity .. | exact Hend] ]).
Qed.

End NoteNames.

Lemma note_number_note_name_witness :
  exists s, note_name (Config 0 1 [] []) (PyInt 61) = Ok s
            /\ note_number (Config 0 1 [] []) (PyStr s) false = Ok (PyInt 61).
Proof.
  apply (note_number_note_name (Config 0 1 [] []) (PyInt 61) 61).
  - reflexivity.
  - lia.
Defined.

(** ** System exclusive data *)

Lemma bind_Ok {A B : Type} (m : result A) (k : A -> result B) (b : B) :
  bind m k = Ok b -> exists a, m = Ok a /\ k a = Ok b.
Proof. destruct m as [a|e]; simpl; [eauto | discriminate]. Qed.

(** Once the conversion to a bytearray is done, [sysex_data] returns that
    bytearray or raises. *)
Lemma sysex_data_returns_bytearray (sysex : pyval) (allow_partial : bool)
  (b : list byte) :
  sysex_data sysex allow_partial = Ok b -> sysex_to_bytearray sysex = Ok b.
Proof.
  unfold sysex_data. intros H.
  apply bind_Ok in H as (b' & Hb & H). rewrite Hb. f_equal.
  destruct (List.length b' <? 2)%nat; [discriminate|].
  apply bind_Ok in H as (first & _ & H).
  destruct (negb (Byte.eqb first xf0)); [discriminate|].
  apply bind_Ok in H as (last & _ & H).
  destruct (negb (Byte.eqb last xf7) && negb allow_partial)%bool;
    [discriminate|].
  apply bind_Ok in H as (u & _ & H). now injection H.
Qed.

(** C8: whatever [sysex_data] accepts, its result is accepted again and
    returned as it is, and a bytearray that is accepted is returned
    unchanged. *)
Theorem sysex_data_idempotent (sysex : pyval) (allow_partial : bool)
  (b : list byte) :
  sysex_data sysex allow_partial = Ok b ->
  sysex_data (PyByteArray b) allow_partial = Ok b
  /\ (forall s, sysex = PyByteArray s -> b = s).
Proof.
  intros H. pose proof (sysex_data_returns_bytearray _ _ _ H) as Hb.
  split.
  - unfold sysex_data in *. rewrite Hb in H. exact H.
  - intros s ->. simpl in Hb. now injection Hb.
Qed.

Lemma sysex_data_idempotent_witness :
  sysex_data (PyByteArray [xf0; x00; x20; x29; x01; xf7]) false
  = Ok [xf0; x00; x20; x29; x01; xf7]
  /\ (forall s, PyStr "F0 00 20 29 01 F7" = PyByteArray s ->
                [xf0; x00; x20; x29; x01; xf7] = s).
Proof.
  apply (sysex_data_idempotent (PyStr "F0 00 20 29 01 F7") false).
  reflexivity.
Defined.

Lemma contains_In (s : string) (c : ascii) :
  contains s c = true <-> In c (list_ascii_of_string s).
Proof.
  unfold contains. rewrite existsb_exists. split.
  - intros (x & Hx & E). apply Ascii.eqb_eq in E. now subst.
  - intros H. exists c. split; [assumption | apply Ascii.eqb_refl].
Qed.

Lemma get_2_None (s : string) :
  String.get 2 s = None <-> (String.length s < 3)%nat.
Proof.
  destruct s as [|a [|b [|c s]]]; simpl; split; intros H;
    try reflexivity; try lia; discriminate.
Qed.

Lemma byte_of_int_ord (c : ascii) : byte_of_int (ord c) = Ok (byte_of_ascii c).
Proof. destruct c as [[] [] [] [] [] [] [] []]; reflexivity. Qed.

(** Every string has character codes: one byte for each character. *)
Lemma char_codes_total (s : string) :
  char_codes s = Ok (map byte_of_ascii (list_ascii_of_string s)).
Proof.
  unfold char_codes. induction s as [|c s IH]; [reflexivity|].
  cbn [list_ascii_of_string bytearray_of map bind].
  rewrite byte_of_int_ord. cbn [bind]. now rewrite IH.
Qed.

(** C9 as stated fails: a string of three or more characters whose third
    character is no delimiter is not always read as hexadecimal pairs.  The
    string "abc" becomes the three character codes 97, 98, 99; read as
    hexadecimal pairs it would be 0xab, 0x0c. *)
Lemma third_character_alone_does_not_decide :
  ~ (forall (s : string) (c : ascii),
       String.get 2 s = Some c ->
       ~ In c (list_ascii_of_string delimiters) ->
       sysex_to_bytearray (PyStr s) = hex_pairs s).
Proof.
  intros H. specialize (H "abc" "c"%char eq_refl).
  assert (Hc : ~ In "c"%char (list_ascii_of_string delimiters)).
  { rewrite <- contains_In. discriminate. }
  specialize (H Hc). discriminate H.
Qed.

(** ** Ranges *)

Lemma below_end_bounds (allow_end : bool) (z : Z) :
  below_end allow_end z = true ->
  0 <= z <= 128 /\ (allow_end = false -> z < 128).
Proof.
  unfold below_end. intros H. apply andb_true_iff in H as [H1 H2].
  apply Z.leb_le in H1. apply Z.ltb_lt in H2.
  destruct allow_end; split; try lia; discriminate.
Qed.

Lemma note_number_bounds (cfg : config) (note : pyval) (allow_end : bool)
  (r : pyval) :
  note_number cfg note allow_end = Ok r ->
  exists z, as_int r = Some z /\ below_end allow_end z = true.
Proof.
  unfold note_number. intros H.
  apply bind_Ok in H as (r0 & _ & H).
  destruct (as_int r0) as [z|] eqn:Hz; [|discriminate].
  destruct (below_end allow_end z) eqn:Hb; [|discriminate].
  injection H as <-. eauto.
Qed.

Lemma ctrl_value_bounds (value : pyval) (allow_end : bool) (r : pyval) :
  ctrl_value value allow_end = Ok r ->
  exists z, as_int r = Some z /\ below_end allow_end z = true.
Proof.
  unfold ctrl_value. intros H.
  destruct (as_int value) as [z|] eqn:Hz; [|discriminate].
  destruct (below_end allow_end z) eqn:Hb; [|discriminate].
  injection H as <-. eauto.
Qed.

Lemma velocity_value_bounds (velocity : pyval) (allow_end : bool)
  (r : pyval) :
  velocity_value velocity allow_end = Ok r ->
  exists z, as_int r = Some z /\ below_end allow_end z = true.
Proof.
  unfold velocity_value. intros H.
  destruct (as_int velocity) as [z|] eqn:Hz; [|discriminate].
  destruct (below_end allow_end z) eqn:Hb; [|discriminate].
  injection H as <-. eauto.
Qed.

Lemma below_end_is_limit (allow_end : bool) (r : pyval) :
  (exists z, as_int r = Some z /\ below_end allow_end z = true) ->
  is_limit r.
Proof.
  intros (z & Hz & Hb). exists z. split; [assumption|].
  now apply below_end_bounds in Hb.
Qed.

Lemma is_single_limits (n lo hi : pyval) :
  is_single n (Ok (lo, hi)) -> is_limit lo /\ is_limit hi.
Proof.
  intros (z & Hz & Hb & E). injection E as -> ->.
  split; [exists z | exists (z + 1)]; (split; [assumption || reflexivity | lia]).
Qed.

(** What the first attempt of each range function gives when the single
    value is accepted. *)
Lemma single_value_range (n : pyval) :
  (exists z, as_int n = Some z /\ below_end false z = true) ->
  is_single n (m <- succ n ;; Ok (n, m)).
Proof.
  intros (z & Hz & Hb). exists z. apply below_end_bounds in Hb as [Hb Hlt].
  unfold succ. rewrite Hz. cbn [bind].
  split; [reflexivity | split; [|reflexivity]].
  specialize (Hlt eq_refl). lia.
Qed.

Section Ranges.

Variable cfg : config.

Lemma note_range_single (notes n : pyval) :
  note_number cfg notes false = Ok n -> is_single n (note_range cfg notes).
Proof.
  intros H. unfold note_range. rewrite H. cbn [bind try_except].
  pose proof (single_value_range n (note_number_bounds _ _ _ _ H))
    as (z & Hz & Hb & E).
  exists z. rewrite E. auto.
Qed.

Lemma ctrl_range_single (value n : pyval) :
  ctrl_value value false = Ok n -> is_single n (ctrl_range value).
Proof.
  intros H. unfold ctrl_range. rewrite H. cbn [bind try_except].
  pose proof (single_value_range n (ctrl_value_bounds _ _ _ H))
    as (z & Hz & Hb & E).
  unfold succ in *. rewrite Hz in *. exists z. auto.
Qed.

Lemma velocity_range_single (velocity n : pyval) :
  velocity_value velocity false = Ok n -> is_single n (velocity_range velocity).
Proof.
  intros H. unfold velocity_range. rewrite H. cbn [bind try_except].
  pose proof (single_value_range n (velocity_value_bounds _ _ _ H))
    as (z & Hz & Hb & E).
  unfold succ in *. rewrite Hz in *. exists z. auto.
Qed.

Lemma note_limit_is_limit (note r : pyval) :
  note_limit cfg note = Ok r -> is_limit r.
Proof.
  intros H. eapply below_end_is_limit, note_number_bounds. exact H.
Qed.

(** One side of a range string: empty, or a note. *)
Lemma range_side_is_limit (side : string) (r : pyval) :
  match side with
  | EmptyString => Ok (PyInt 0)
  | _ => note_limit cfg (PyStr side)
  end = Ok r ->
  is_limit r.
Proof.
  destruct side.
  - intros [= <-]. exists 0. split; [reflexivity | lia].
  - apply note_limit_is_limit.
Qed.

Lemma note_range_limits (notes lo hi : pyval) :
  note_range cfg notes = Ok (lo, hi) -> is_limit lo /\ is_limit hi.
Proof.
  destruct (note_number cfg notes false) as [n|e] eqn:Hn.
  - intros H. pose proof (note_range_single _ _ Hn) as Hs.
    rewrite H in Hs. exact (is_single_limits _ _ _ Hs).
  - unfold note_range. rewrite Hn. cbn [bind try_except].
    unfold try_except_only.
    match goal with
    | |- match ?m with _ => _ end = _ -> _ => destruct m as [p|e'] eqn:Hm
    end.
    2: { destruct (existsb _ _); discriminate. }
    intros [= ->]. destruct notes; try discriminate.
    + apply bind_Ok in Hm as (n0 & _ & Hm).
      apply bind_Ok in Hm as (lower & Hlo & Hm).
      apply bind_Ok in Hm as (n1 & _ & Hm).
      apply bind_Ok in Hm as (upper & Hhi & Hm).
      injection Hm as <- <-.
      split; eapply range_side_is_limit; eassumption.
    + apply bind_Ok in Hm as (a & _ & Hm).
      apply bind_Ok in Hm as (lower & Hlo & Hm).
      apply bind_Ok in Hm as (b & _ & Hm).
      apply bind_Ok in Hm as (upper & Hhi & Hm).
      injection Hm as <- <-.
      split; eapply note_limit_is_limit; eassumption.
Qed.

End Ranges.

Lemma ctrl_range_limits (value lo hi : pyval) :
  ctrl_range value = Ok (lo, hi) -> is_limit lo /\ is_limit hi.
Proof.
  destruct (ctrl_value value false) as [n|e] eqn:Hn.
  - intros H. pose proof (ctrl_range_single _ _ Hn) as Hs.
    rewrite H in Hs. exact (is_single_limits _ _ _ Hs).
  - unfold ctrl_range. rewrite Hn. cbn [bind try_except].
    intros H. apply bind_Ok in H as ([range|] & Hm & H); [|discriminate].
    injection H as ->.
    destruct value as [| | |[|a [|b [|]]]| | |]; try discriminate.
    apply bind_Ok in Hm as (lower & Hlo & Hm).
    apply bind_Ok in Hm as (upper & Hhi & Hm).
    injection Hm as <- <-.
    split; eapply below_end_is_limit, ctrl_value_bounds; eassumption.
Qed.

Lemma velocity_range_limits (velocity lo hi : pyval) :
  velocity_range velocity = Ok (lo, hi) -> is_limit lo /\ is_limit hi.
Proof.
  destruct (velocity_value velocity false) as [n|e] eqn:Hn.
  - intros H. pose proof (velocity_range_single _ _ Hn) as Hs.
    rewrite H in Hs. exact (is_single_limits _ _ _ Hs).
  - unfold velocity_range. rewrite Hn. cbn [bind try_except].
    intros H. apply bind_Ok in H as ([range|] & Hm & H); [|discriminate].
    injection H as ->.
    destruct velocity as [| | |[|a [|b [|]]]| | |]; try discriminate.
    apply bind_Ok in Hm as (lower & Hlo & Hm).
    apply bind_Ok in Hm as (upper & Hhi & Hm).
    injection Hm as <- <-.
    split; eapply below_end_is_limit, velocity_value_bounds; eassumption.
Qed.

Lemma below_end_limit (z : Z) : 0 <= z <= 128 -> below_end true z = true.
Proof.
  intros H. unfold below_end. apply andb_true_iff.
  split; [apply Z.leb_le | apply Z.ltb_lt]; lia.
Qed.

(** * Further properties of [util.py] and [event.py] *)

(** ** Numbers under the data offset *)

(** [channel_number] accepts a plain integer exactly in the sixteen values
    that start at the data offset, and an integer tagged [NoDataOffset]
    exactly from 0 to 15; outside it raises the [ValueError] "channel number
    is out of range".  What it accepts it returns as it is. *)
Theorem channel_number_window (cfg : config) (n : Z) :
  (channel_number cfg (PyInt n) = Ok (PyInt n)
   <-> data_offset cfg <= n < data_offset cfg + 16)
  /\ (channel_number cfg (NoDataOffset n) = Ok (NoDataOffset n)
      <-> 0 <= n < 16)
  /\ (~ data_offset cfg <= n < data_offset cfg + 16 ->
      channel_number cfg (PyInt n)
      = Raise (Exn ValueError "channel number %d is out of range" [PyInt n]))
  /\ (forall v r, channel_number cfg v = Ok r -> r = v)
  /\ (~ 0 <= n < 16 ->
      channel_number cfg (NoDataOffset n)
      = Raise (Exn ValueError "channel number %d is out of range"
                 [NoDataOffset n])).
Proof.
  unfold channel_number, actual, in_range, raise. cbn [as_int bind].
  split; [|split; [|split; [|split]]].
  5: { intros Hout.
       destruct (Z.leb_spec 0 n); destruct (Z.ltb_spec n 16); cbn;
         try reflexivity; lia. }
  - destruct (Z.leb_spec 0 (n - data_offset cfg));
      destruct (Z.ltb_spec (n - data_offset cfg) 16); cbn;
      split; intros; try discriminate; try reflexivity; lia.
  - destruct (Z.leb_spec 0 n); destruct (Z.ltb_spec n 16); cbn;
      split; intros; try discriminate; try reflexivity; lia.
  - intros Hout.
    destruct (Z.leb_spec 0 (n - data_offset cfg));
      destruct (Z.ltb_spec (n - data_offset cfg) 16); cbn;
      try reflexivity; lia.
  - intros v r. destruct v; cbn [as_int bind]; try discriminate.
    all: match goal with
         | |- (if ?c then _ else _) = _ -> _ =>
             destruct c; [discriminate | now intros [= <-]]
         end.
Qed.

Lemma channel_number_window_witness :
  channel_number (with_data_offset 1) (PyInt 16) = Ok (PyInt 16)
  /\ channel_number (with_data_offset 1) (PyInt 0)
     = Raise (Exn ValueError "channel number %d is out of range" [PyInt 0]).
Proof.
  split.
  - apply (proj1 (channel_number_window (with_data_offset 1) 16)).
    simpl. lia.
  - apply (proj1 (proj2 (proj2 (channel_number_window (with_data_offset 1) 0)))).
    simpl. lia.
Defined.

(** [program_number] accepts a plain integer exactly in the 128 values that
    start at the data offset, and a tagged one exactly from 0 to 127. *)
Theorem program_number_window (cfg : config) (n : Z) :
  (program_number cfg (PyInt n) = Ok (PyInt n)
   <-> data_offset cfg <= n < data_offset cfg + 128)
  /\ (program_number cfg (NoDataOffset n) = Ok (NoDataOffset n)
      <-> 0 <= n < 128)
  /\ (~ data_offset cfg <= n < data_offset cfg + 128 ->
      program_number cfg (PyInt n)
      = Raise (Exn ValueError "program number %d is out of range" [PyInt n])).
Proof.
  unfold program_number, actual, in_range, raise. cbn [as_int bind].
  split; [|split].
  - destruct (Z.leb_spec 0 (n - data_offset cfg));
      destruct (Z.ltb_spec (n - data_offset cfg) 128); cbn;
      split; intros; try discriminate; try reflexivity; lia.
  - destruct (Z.leb_spec 0 n); destruct (Z.ltb_spec n 128); cbn;
      split; intros; try discriminate; try reflexivity; lia.
  - intros Hout.
    destruct (Z.leb_spec 0 (n - data_offset cfg));
      destruct (Z.ltb_spec (n - data_offset cfg) 128); cbn;
      try reflexivity; lia.
Qed.

Lemma program_number_window_witness :
  program_number (with_data_offset 1) (PyInt 128) = Ok (PyInt 128)
  /\ program_number (with_data_offset 1) (PyInt 0)
     = Raise (Exn ValueError "program number %d is out of range" [PyInt 0]).
Proof.
  split.
  - apply (proj1 (program_number_window (with_data_offset 1) 128)).
    simpl. lia.
  - apply (proj2 (proj2 (program_number_window (with_data_offset 1) 0))).
    simpl. lia.
Defined.

(** [scene_number] and [subscene_number] accept the same integers: a plain
    one from the data offset upwards, a tagged one from 0 upwards, with no
    upper bound. *)
Theorem scene_number_lower_bound (cfg : config) (n : Z) :
  (scene_number cfg (PyInt n) = Ok (PyInt n) <-> data_offset cfg <= n)
  /\ (subscene_number cfg (PyInt n) = Ok (PyInt n) <-> data_offset cfg <= n)
  /\ (scene_number cfg (NoDataOffset n) = Ok (NoDataOffset n) <-> 0 <= n)
  /\ (subscene_number cfg (NoDataOffset n) = Ok (NoDataOffset n) <-> 0 <= n).
Proof.
  unfold scene_number, subscene_number, actual, is_negative, raise.
  cbn [as_int bind].
  destruct (Z.ltb_spec (n - data_offset cfg) 0); destruct (Z.ltb_spec n 0);
    repeat split; intros; try discriminate; try reflexivity; lia.
Qed.

Lemma scene_number_lower_bound_witness :
  scene_number (with_data_offset 1) (PyInt 100000) = Ok (PyInt 100000).
Proof.
  apply (proj1 (scene_number_lower_bound (with_data_offset 1) 100000)).
  simpl. lia.
Defined.

(** The data offset plays no part in controller numbers, controller values
    and velocities: a plain integer and the same integer tagged
    [NoDataOffset] are accepted alike, from 0 to 127. *)
Theorem ctrl_number_no_offset (v : pyval) (n : Z) :
  as_int v = Some n ->
  (ctrl_number v = Ok v <-> 0 <= n < 128)
  /\ (ctrl_value v false = Ok v <-> 0 <= n < 128)
  /\ (velocity_value v false = Ok v <-> 0 <= n < 128)
  /\ (ctrl_value v true = Ok v <-> 0 <= n <= 128)
  /\ (velocity_value v true = Ok v <-> 0 <= n <= 128).
Proof.
  intros Hv.
  unfold ctrl_number, ctrl_value, velocity_value, in_range, below_end, raise.
  rewrite Hv.
  destruct (Z.leb_spec 0 n); destruct (Z.ltb_spec n 128);
    destruct (Z.ltb_spec n 129); cbn;
    repeat split; intros; try discriminate; try reflexivity; lia.
Qed.

Lemma ctrl_number_no_offset_witness :
  ctrl_number (NoDataOffset 127) = Ok (NoDataOffset 127).
Proof.
  apply (proj1 (ctrl_number_no_offset (NoDataOffset 127) 127 eq_refl)). lia.
Defined.

(** ** Port names, continued *)

Lemma list_index_sound (x : string) (l : list string) :
  forall z, list_index x l = Ok z ->
            exists i, z = Z.of_nat i /\ first_at x l i.
Proof.
  induction l as [|y l IH]; intros z; simpl; [discriminate|].
  destruct (String.eqb_spec x y) as [->|Hne].
  - intros [= <-]. exists 0%nat.
    split; [reflexivity | split; [reflexivity | intros k Hk; lia]].
  - intros H. apply bind_Ok in H as (j & Hj & H). injection H as <-.
    destruct (IH j Hj) as (i & -> & Hi & Hlt).
    exists (S i). split; [lia | split; [exact Hi|]].
    intros [|k] Hk; simpl; [congruence | apply Hlt; lia].
Qed.

(** A name that [port_number] resolves is resolved to a position where that
    name stands, in the input ports or in the output ports, counted from the
    data offset; and the number returned is itself a port number that
    [port_number] accepts and returns unchanged. *)
Theorem port_number_resolves (cfg : config) (name : string) (p : pyval) :
  port_number cfg (PyStr name) = Ok p ->
  exists i,
    p = PyInt (Z.of_nat i + data_offset cfg)
    /\ (first_at name (_in_portnames cfg) i
        \/ first_at name (_out_portnames cfg) i)
    /\ port_number cfg p = Ok p.
Proof.
  assert (Hres : forall l z,
             (i <- list_index name l ;; offset cfg (PyInt i)) = Ok z ->
             exists i, z = PyInt (Z.of_nat i + data_offset cfg)
                       /\ first_at name l i).
  { intros l z H. apply bind_Ok in H as (j & Hj & H).
    destruct (list_index_sound _ _ _ Hj) as (i & -> & Hi).
    cbv [offset as_int] in H. injection H as <-. eauto. }
  assert (Hgo : (if list_mem name (_in_portnames cfg)
                 then i <- list_index name (_in_portnames cfg) ;;
                      offset cfg (PyInt i)
                 else if list_mem name (_out_portnames cfg)
                 then i <- list_index name (_out_portnames cfg) ;;
                      offset cfg (PyInt i)
                 else raise ValueError "invalid port name '%s'" [PyStr name])
                = Ok p ->
                exists i, p = PyInt (Z.of_nat i + data_offset cfg)
                          /\ (first_at name (_in_portnames cfg) i
                              \/ first_at name (_out_portnames cfg) i)).
  { destruct (list_mem name (_in_portnames cfg)).
    - intros H. destruct (Hres _ _ H) as (i & -> & Hi). eauto.
    - destruct (list_mem name (_out_portnames cfg)); [|discriminate].
      intros H. destruct (Hres _ _ H) as (i & -> & Hi). eauto. }
  intros H.
  assert (Hp : exists i, p = PyInt (Z.of_nat i + data_offset cfg)
                         /\ (first_at name (_in_portnames cfg) i
                             \/ first_at name (_out_portnames cfg) i)).
  { unfold port_number in H.
    destruct (list_mem name (_in_portnames cfg)
              && list_mem name (_out_portnames cfg))%bool.
    - apply bind_Ok in H as (i & _ & H). apply bind_Ok in H as (j & _ & H).
      destruct (negb (i =? j)); [discriminate | exact (Hgo H)].
    - exact (Hgo H). }
  destruct Hp as (i & -> & Hi). exists i. repeat split; try assumption.
  unfold port_number, actual, is_negative. cbn [bind as_int].
  destruct (Z.ltb_spec (Z.of_nat i + data_offset cfg - data_offset cfg) 0);
    [lia | reflexivity].
Qed.

Lemma port_number_resolves_witness :
  exists i,
    PyInt 3 = PyInt (Z.of_nat i + 1)
    /\ (first_at "synth" ["keys"] i \/ first_at "synth" ["a"; "b"; "synth"] i)
    /\ port_number (Config 1 0 ["keys"] ["a"; "b"; "synth"]) (PyInt 3)
       = Ok (PyInt 3).
Proof.
  apply (port_number_resolves (Config 1 0 ["keys"] ["a"; "b"; "synth"])
           "synth" (PyInt 3)).
  reflexivity.
Defined.

(** ** Event attributes, continued *)

Section Slots.

Import event.

(** Writing an attribute is seen through every attribute of the same slot
    ([note] and [param] share [data1], [velocity] and [value] share
    [data2]) and leaves the attributes of the other slot, the port and the
    channel as they were. *)
Theorem attribute_slots (ev : MidiEvent) (a a' : attribute) (v : Z) :
  exists ev',
    snd (set a ev v) = Ok ev'
    /\ (slot a = slot a' -> snd (get a' ev') = Ok v)
    /\ (slot a <> slot a' -> snd (get a' ev') = snd (get a' ev))
    /\ port ev' = port ev /\ channel ev' = channel ev.
Proof.
  unfold get, set, property, make_get_set, getter, setter, check_type.
  cbn [fst snd].
  destruct a, a';
    (eexists; split;
     [ destruct (Z.land (type ev) _ =? 0); reflexivity | ]);
    cbn [type];
    (split; [|split; [|split; reflexivity]]);
    intros H; try discriminate H; try (exfalso; apply H; reflexivity);
    destruct (Z.land (type ev) _ =? 0); reflexivity.
Qed.

End Slots.

Lemma attribute_slots_witness :
  exists ev',
    snd (event.set event.note (event.mkMidiEvent 1 0 0 60 100) 62) = Ok ev'
    /\ snd (event.get event.param ev') = Ok 62.
Proof.
  destruct (attribute_slots (event.mkMidiEvent 1 0 0 60 100)
              event.note event.param 62) as (ev' & Hset & Hsame & _).
  exists ev'. split; [exact Hset | apply Hsame; reflexivity].
Defined.

(** ** System exclusive data, continued *)

Lemma check_data_bytes_Forall (l : list byte) :
  check_data_bytes l = Ok tt <-> Forall data_byte l.
Proof.
  unfold data_byte. induction l as [|c l IH]; simpl.
  - split; [constructor | reflexivity].
  - destruct (N.ltb_spec 127 (Byte.to_N c)).
    + split; [discriminate|]. intros H'. inversion H'; subst. lia.
    + rewrite IH. split.
      * intros H'. constructor; [lia | assumption].
      * intros H'. now inversion H'.
Qed.

Lemma two_or_more_ends {A : Type} (l : list A) :
  (List.length l <? 2)%nat = false ->
  exists first middle final, l = first :: middle ++ [final].
Proof.
  intros H. apply Nat.ltb_ge in H.
  destruct l as [|first rest]; [simpl in H; lia|].
  destruct (exists_last (l := rest)) as (middle & final & ->).
  - intros ->. simpl in H. lia.
  - eauto.
Qed.

(** The checks of [sysex_data] on a bytearray with a first byte, a middle
    and a final byte. *)
Lemma sysex_data_ends (first final : byte) (middle : list byte)
  (allow_partial : bool) :
  sysex_data (PyByteArray (first :: middle ++ [final])) allow_partial
  = if negb (Byte.eqb first xf0)
    then raise ValueError "sysex doesn't start with F0" []
    else if (negb (Byte.eqb final xf7) && negb allow_partial)%bool
         then raise ValueError "sysex doesn't end with F7" []
         else _ <- check_data_bytes middle ;;
              Ok (first :: middle ++ [final]).
Proof.
  unfold sysex_data. cbn [sysex_to_bytearray bind].
  assert (Hlen : List.length (first :: middle ++ [final])
                 = S (S (List.length middle)))
    by (simpl; rewrite length_app; simpl; lia).
  rewrite Hlen. cbn [Nat.ltb Nat.leb].
  cbn [getitem nth_error of_option bind].
  replace (S (S (List.length middle)) - 1)%nat with (S (List.length middle))
    by lia.
  unfold getitem. cbn [nth_error tl].
  rewrite nth_error_app2 by lia. rewrite Nat.sub_diag.
  cbn [nth_error of_option bind]. now rewrite removelast_last.
Qed.

Lemma sysex_data_Ok_framed (allow_partial : bool) (sysex : pyval)
  (b : list byte) :
  sysex_data sysex allow_partial = Ok b -> framed allow_partial b.
Proof.
  intros H.
  pose proof (sysex_data_returns_bytearray _ _ _ H) as Hb.
  assert (H' : sysex_data (PyByteArray b) allow_partial = Ok b)
    by (unfold sysex_data in *; rewrite Hb in H; exact H).
  assert (Hlen : (List.length b <? 2)%nat = false).
  { unfold sysex_data in H'. cbn [sysex_to_bytearray bind] in H'.
    destruct (List.length b <? 2)%nat; [discriminate | reflexivity]. }
  destruct (two_or_more_ends b Hlen) as (first & middle & final & ->).
  rewrite sysex_data_ends in H'.
  destruct (Byte.eqb first xf0) eqn:Hf; [|discriminate].
  apply Byte.byte_dec_bl in Hf. subst first. cbn [negb] in H'.
  destruct (negb (Byte.eqb final xf7) && negb allow_partial)%bool eqn:Hl;
    [discriminate|].
  apply bind_Ok in H' as ([] & Hc & _).
  exists middle, final. split; [reflexivity|].
  split; [now apply check_data_bytes_Forall|].
  intros ->. cbn in Hl. rewrite andb_true_r in Hl.
  apply negb_false_iff in Hl. now apply Byte.byte_dec_bl.
Qed.

Lemma framed_sysex_data (allow_partial : bool) (b : list byte) :
  framed allow_partial b -> sysex_data (PyByteArray b) allow_partial = Ok b.
Proof.
  intros (data & closing & -> & Hdata & Hclose).
  rewrite sysex_data_ends. cbn [Byte.eqb negb].
  apply check_data_bytes_Forall in Hdata. rewrite Hdata. cbn [bind].
  destruct allow_partial.
  - now rewrite andb_false_r.
  - rewrite (Hclose eq_refl). reflexivity.
Qed.

(** What [sysex_data] accepts is a framed message, and a bytearray is
    accepted exactly when it is one: 0xF0 first, bytes below 0x80 inside,
    and 0xF7 last unless a partial message is allowed. *)
Theorem sysex_data_framed (allow_partial : bool) :
  (forall sysex b,
     sysex_data sysex allow_partial = Ok b -> framed allow_partial b)
  /\ (forall b,
        framed allow_partial b ->
        sysex_data (PyByteArray b) allow_partial = Ok b).
Proof.
  split.
  - intros sysex b. apply sysex_data_Ok_framed.
  - apply framed_sysex_data.
Qed.

Lemma sysex_data_framed_witness :
  sysex_data (PyByteArray [xf0; x7e; x00; xf7]) false
  = Ok [xf0; x7e; x00; xf7].
Proof.
  apply (proj2 (sysex_data_framed false)).
  exists [x7e; x00], xf7. split; [reflexivity|].
  split; [|reflexivity].
  repeat constructor; unfold data_byte; simpl; lia.
Defined.

(** A message that is accepted as complete is accepted, with the same
    result, when partial messages are allowed. *)
Theorem sysex_data_partial (sysex : pyval) (b : list byte) :
  sysex_data sysex false = Ok b -> sysex_data sysex true = Ok b.
Proof.
  intros H. pose proof (sysex_data_returns_bytearray _ _ _ H) as Hb.
  destruct (sysex_data_Ok_framed _ _ _ H)
    as (data & closing & E & Hdata & Hclose).
  assert (Hf : framed true b)
    by (exists data, closing; repeat split; [assumption.. | discriminate]).
  pose proof (framed_sysex_data true b Hf) as Ht.
  unfold sysex_data in *. rewrite Hb. exact Ht.
Qed.

Lemma sysex_data_partial_witness :
  sysex_data (PyStr "F0 00 20 29 01 F7") true
  = Ok [xf0; x00; x20; x29; x01; xf7].
Proof.
  apply (sysex_data_partial (PyStr "F0 00 20 29 01 F7")). reflexivity.
Defined.

Lemma check_manufacturer_bytes_Forall (l : list byte) :
  check_manufacturer_bytes l = Ok tt <-> Forall data_byte l.
Proof.
  unfold data_byte. induction l as [|c l IH]; simpl.
  - split; [constructor | reflexivity].
  - destruct (N.ltb_spec 127 (Byte.to_N c)).
    + split; [discriminate|]. intros H'. inversion H'; subst. lia.
    + rewrite IH. split.
      * intros H'. constructor; [lia | assumption].
      * intros H'. now inversion H'.
Qed.

(** Whatever test tells sequences from scalars, a manufacturer id that
    [sysex_manufacturer] returns is one byte, or three bytes the first of
    which is 0, and all its bytes are below 0x80.  A scalar from 0 to 127 is
    returned as the one byte of that value. *)
Theorem sysex_manufacturer_result (issequence : pyval -> bool) :
  (forall manufacturer b,
     sysex_manufacturer issequence manufacturer = Ok b ->
     ((exists c, b = [c]) \/ (exists c d, b = [x00; c; d]))
     /\ Forall data_byte b)
  /\ (forall n c,
        issequence (PyInt n) = false ->
        0 <= n < 128 -> Byte.of_N (Z.to_N n) = Some c ->
        sysex_manufacturer issequence (PyInt n) = Ok [c]).
Proof.
  split.
  - intros manufacturer b H. unfold sysex_manufacturer in H.
    apply bind_Ok in H as (manid & _ & H).
    destruct manid as [|c0 [|c1 [|c2 [|c3 rest]]]];
      cbn [List.length Nat.eqb orb negb] in H; try discriminate.
    + cbn [bind] in H.
      apply bind_Ok in H as ([] & Hc & H). injection H as <-.
      split; [left; eauto | now apply check_manufacturer_bytes_Forall].
    + cbn [bind getitem nth_error of_option] in H.
      destruct (Byte.eqb c0 x00) eqn:E; cbn [negb] in H; [|discriminate].
      apply Byte.byte_dec_bl in E. subst c0.
      apply bind_Ok in H as ([] & Hc & H). injection H as <-.
      split; [right; eauto | now apply check_manufacturer_bytes_Forall].
  - intros n c Hseq Hn Hc. unfold sysex_manufacturer. rewrite Hseq.
    cbn [negb sysex_to_bytearray bytearray bytearray_of as_int of_option bind].
    unfold byte_of_int.
    replace ((0 <=? n) && (n <? 256))%bool with true
      by (symmetry; apply andb_true_iff;
          split; [apply Z.leb_le | apply Z.ltb_lt]; lia).
    rewrite Hc. cbn. apply Byte.to_of_N in Hc. rewrite Hc.
    destruct (N.ltb_spec 127 (Z.to_N n)); [lia | reflexivity].
Qed.

Lemma sysex_manufacturer_result_witness :
  sysex_manufacturer (fun _ => false) (PyInt 67) = Ok [x43].
Proof.
  apply (proj2 (sysex_manufacturer_result (fun _ => false)) 67 x43).
  - reflexivity.
  - lia.
  - reflexivity.
Defined.

(** ** The tables *)

(** The two note tables agree: the number of every name that [_NOTE_NAMES]
    gives to a pitch class is that pitch class, and every number in
    [_NOTE_NUMBERS] is a pitch class, from 0 to 11. *)
Theorem tonic_note_number_table :
  (forall key v, tonic_note_number key = Ok v -> 0 <= v < 12)
  /\ (forall i, 0 <= i < 12 ->
                exists name, dict_get Z.eqb _NOTE_NAMES i = Ok name
                             /\ tonic_note_number (PyStr name) = Ok i).
Proof.
  split.
  - intros key v. destruct key; simpl; try discriminate.
    + repeat match goal with
             | |- (if ?c then _ else _) = _ -> _ =>
                 destruct c; [intros [= <-]; lia|]
             end.
      discriminate.
    + destruct (forallb hashable items); discriminate.
  - intros i Hi.
    assert (Hcases : i = 0 \/ i = 1 \/ i = 2 \/ i = 3 \/ i = 4 \/ i = 5
                     \/ i = 6 \/ i = 7 \/ i = 8 \/ i = 9 \/ i = 10 \/ i = 11)
      by lia.
    repeat destruct Hcases as [-> | Hcases]; try subst i;
      eexists; split; reflexivity.
Qed.

Lemma tonic_note_number_table_witness :
  exists name, dict_get Z.eqb _NOTE_NAMES 10 = Ok name
               /\ tonic_note_number (PyStr name) = Ok 10.
Proof.
  apply (proj2 tonic_note_number_table 10). lia.
Defined.

Lemma dict_mem_get {K V : Type} (eqb : K -> K -> bool) (d : list (K * V))
  (k : K) :
  dict_mem eqb d k = true -> exists v, dict_get eqb d k = Ok v.
Proof.
  unfold dict_mem. induction d as [|[k' v'] d IH]; simpl; [discriminate|].
  destruct (eqb k k'); simpl; [eauto | exact IH].
Qed.

Lemma described_controller_in_range (n : Z) :
  dict_mem Z.eqb _CONTROLLER_NAMES n = true -> 0 <= n < 128.
Proof.
  unfold dict_mem. simpl. intros H.
  repeat (apply orb_true_iff in H; destruct H as [H|H];
          [apply Z.eqb_eq in H; lia|]).
  discriminate.
Qed.

(** On an integer, plain or tagged, [controller_name] never raises: it
    returns the description the table has for that number, and [None] when
    the table has none.  Every integer that has a description is a
    controller number that [ctrl_number] accepts. *)
Theorem controller_name_described (ctrl : pyval) (n : Z) :
  as_int ctrl = Some n ->
  (exists o, controller_name ctrl = Ok o)
  /\ (forall s, controller_name ctrl = Ok (Some s)
                <-> In (n, s) _CONTROLLER_NAMES)
  /\ (controller_name ctrl = Ok None
      <-> forall s, ~ In (n, s) _CONTROLLER_NAMES)
  /\ (forall s, controller_name ctrl = Ok (Some s) ->
                ctrl_number ctrl = Ok ctrl).
Proof.
  intros Hn.
  assert (Hlook : forall s, controller_name ctrl = Ok (Some s)
                            <-> In (n, s) _CONTROLLER_NAMES).
  { intros s. unfold controller_name. rewrite Hn. split.
    - destruct (dict_mem Z.eqb _CONTROLLER_NAMES n); [|discriminate].
      intros H. apply bind_Ok in H as (d & Hd & H). injection H as <-.
      revert Hd. cbn [dict_get _CONTROLLER_NAMES In].
      repeat match goal with
             | |- (if Z.eqb ?a ?b then _ else _) = _ -> _ =>
                 destruct (Z.eqb_spec a b);
                 [subst; intros [= <-]; tauto|]
             end.
      discriminate.
    - cbn [_CONTROLLER_NAMES In]. intros H.
      repeat (destruct H as [H|H]; [injection H as <- <-; reflexivity|]).
      contradiction. }
  split; [|split; [exact Hlook|split]].
  - unfold controller_name. rewrite Hn.
    destruct (dict_mem Z.eqb _CONTROLLER_NAMES n) eqn:Hm; [|eauto].
    destruct (dict_mem_get _ _ _ Hm) as (v & ->). cbn [bind]. eauto.
  - split.
    + intros H s Hs. apply Hlook in Hs. congruence.
    + intros H. unfold controller_name. rewrite Hn.
      destruct (dict_mem Z.eqb _CONTROLLER_NAMES n) eqn:Hm; [|reflexivity].
      destruct (dict_mem_get _ _ _ Hm) as (v & Hv). exfalso.
      apply (H v), Hlook. unfold controller_name. now rewrite Hn, Hm, Hv.
  - intros s Hs. apply Hlook in Hs.
    unfold ctrl_number, in_range. rewrite Hn.
    assert (Hr : 0 <= n < 128).
    { revert Hs. cbn [_CONTROLLER_NAMES In]. intros H.
      repeat (destruct H as [H|H]; [injection H as <- _; lia|]).
      contradiction. }
    destruct (Z.leb_spec 0 n); destruct (Z.ltb_spec n 128);
      try lia; reflexivity.
Qed.

Lemma controller_name_described_witness :
  ctrl_number (NoDataOffset 64) = Ok (NoDataOffset 64).
Proof.
  apply (proj2 (proj2 (proj2 (controller_name_described
                                (NoDataOffset 64) 64 eq_refl)))
           "Sustain").
  reflexivity.
Defined.

(** ** Note names, continued *)

Section NoteParsing.

Variable cfg : config.

(** A name of the table followed by [str(k)] is that name in octave [k],
    inside the range or not. *)
Lemma note_number_name_str (name : string) (v k : Z) (allow_end : bool) :
  lower name = name ->
  no_break name = true ->
  dict_get String.eqb _NOTE_NUMBERS name = Ok v ->
  note_number cfg (PyStr (name ++ str_of_int k)) allow_end
  = checked allow_end (v + (k + octave_offset cfg) * 12).
Proof.
  intros Hlow Hnb Hv. unfold note_number, checked.
  rewrite lower_app, Hlow, lower_str_of_int.
  destruct (str_of_int_head k) as (c & s & Hs & Hc).
  rewrite Hs, (loop_index_app name c s Hnb Hc 0%nat), <- Hs.
  cbn [of_option bind Nat.add].
  rewrite slice_to_app, slice_from_app, int_of_str_of_int.
  cbn [bind]. rewrite Hv. reflexivity.
Qed.

Lemma note_name_parses (note : pyval) (n : Z) (allow_end : bool) :
  as_int note = Some n ->
  exists s, note_name cfg note = Ok s
            /\ note_number cfg (PyStr s) allow_end = checked allow_end n.
Proof.
  intros Hint. unfold note_name. rewrite Hint.
  set (k := n / 12 - octave_offset cfg).
  assert (Hr : n = n mod 12 + (k + octave_offset cfg) * 12)
    by (unfold k; pose proof (Z.div_mod n 12); lia).
  pose proof (Z.mod_pos_bound n 12 eq_refl) as Hm.
  replace (checked allow_end n)
    with (checked allow_end (n mod 12 + (k + octave_offset cfg) * 12))
    by (f_equal; lia).
  clearbody k. generalize (n mod 12) Hm. clear. intros m Hm.
  assert (Hcases : m = 0 \/ m = 1 \/ m = 2 \/ m = 3 \/ m = 4 \/ m = 5
                   \/ m = 6 \/ m = 7 \/ m = 8 \/ m = 9 \/ m = 10 \/ m = 11)
    by lia.
  repeat destruct Hcases as [-> | Hcases]; try subst m;
    (eexists; split;
     [ reflexivity | apply note_number_name_str; reflexivity ]).
Qed.

Lemma checked_inj (allow_end : bool) (n m : Z) :
  checked allow_end n = checked allow_end m -> n = m.
Proof.
  unfold checked, raise.
  destruct (below_end allow_end n), (below_end allow_end m);
    intros H; congruence.
Qed.

End NoteParsing.

(** For every integer [n], in the range of notes or not, [note_name(n)] is
    a string that [note_number] reads as [n]: it is returned when it is
    below the end of the range and is otherwise reported in the
    [ValueError] "note number is out of range". *)
Theorem note_name_read_back (cfg : config) (note : pyval) (n : Z)
  (allow_end : bool) :
  as_int note = Some n ->
  exists s,
    note_name cfg note = Ok s
    /\ note_number cfg (PyStr s) allow_end
       = if below_end allow_end n then Ok (PyInt n)
         else Raise (Exn ValueError "note number %d is out of range"
                       [PyInt n]).
Proof. intros H. exact (note_name_parses cfg note n allow_end H). Qed.

Lemma note_name_read_back_witness :
  exists s,
    note_name (Config 0 1 [] []) (PyInt (-5)) = Ok s
    /\ note_number (Config 0 1 [] []) (PyStr s) false
       = Raise (Exn ValueError "note number %d is out of range" [PyInt (-5)]).
Proof.
  apply (note_name_read_back (Config 0 1 [] []) (PyInt (-5)) (-5) false).
  reflexivity.
Defined.

(** Two integers with the same name are the same integer. *)
Theorem note_name_injective (cfg : config) (a b : pyval) (s : string) :
  note_name cfg a = Ok s -> note_name cfg b = Ok s -> as_int a = as_int b.
Proof.
  intros Ha Hb.
  destruct (as_int a) as [n|] eqn:Hn;
    [|unfold note_name in Ha; rewrite Hn in Ha; discriminate].
  destruct (as_int b) as [m|] eqn:Hm;
    [|unfold note_name in Hb; rewrite Hm in Hb; discriminate].
  destruct (note_name_parses cfg a n true Hn) as (s1 & H1 & P1).
  destruct (note_name_parses cfg b m true Hm) as (s2 & H2 & P2).
  assert (s1 = s) by congruence. assert (s2 = s) by congruence. subst s1 s2.
  rewrite P1 in P2. f_equal. exact (checked_inj _ _ _ P2).
Qed.

Lemma note_name_injective_witness :
  as_int (PyInt 60) = as_int (NoDataOffset 60).
Proof.
  apply (note_name_injective (Config 0 1 [] []) (PyInt 60) (NoDataOffset 60)
           "c4"); reflexivity.
Defined.

(** The flat names are read as their sharp equivalents, in every octave
    and for every octave offset. *)
Theorem note_number_enharmonic (cfg : config) (k : Z) (allow_end : bool) :
  let read name := note_number cfg (PyStr (name ++ str_of_int k)) allow_end in
  read "db" = read "c#" /\ read "eb" = read "d#" /\ read "gb" = read "f#"
  /\ read "ab" = read "g#" /\ read "bb" = read "a#".
Proof.
  cbv zeta.
  repeat split;
    (etransitivity;
     [ apply note_number_name_str; reflexivity
     | symmetry; apply note_number_name_str; reflexivity ]).
Qed.

(** On a string [note_number] either returns a plain integer below the end
    of the range or raises a [ValueError]: "invalid note name" with the
    string in lower case for whatever goes wrong while the name is read,
    "note number is out of range" with the number otherwise.  No other
    exception leaves it. *)
Theorem note_number_str_outcome (cfg : config) (s : string)
  (allow_end : bool) :
  (exists r, note_number cfg (PyStr s) allow_end = Ok (PyInt r)
             /\ below_end allow_end r = true)
  \/ note_number cfg (PyStr s) allow_end
     = Raise (Exn ValueError "invalid note name '%s'" [PyStr (lower s)])
  \/ (exists r, note_number cfg (PyStr s) allow_end
                = Raise (Exn ValueError "note number %d is out of range"
                           [PyInt r])
                /\ below_end allow_end r = false).
Proof.
  unfold note_number.
  destruct (loop_index (lower s) 0) as [i|];
    cbn [of_option bind try_except raise as_int];
    [|right; left; reflexivity].
  destruct (int_of_str 10 (slice_from i (lower s))) as [octave|];
    cbn [of_option bind try_except raise as_int];
    [|right; left; reflexivity].
  destruct (dict_get String.eqb _NOTE_NUMBERS (slice_to i (lower s)))
    as [n|];
    cbn [of_option bind try_except raise as_int];
    [|right; left; reflexivity].
  destruct (below_end allow_end (n + (octave + octave_offset cfg) * 12))
    eqn:Hb; [left | right; right];
    (eexists; split; [reflexivity | exact Hb]).
Qed.

(** ** Note ranges, continued *)

Lemma note_number_str_raises (cfg : config) (s : string) (allow_end : bool)
  (e : exn) :
  note_number cfg (PyStr s) allow_end = Raise e -> exn_cls e = ValueError.
Proof.
  unfold note_number.
  destruct (loop_index (lower s) 0) as [i|];
    cbn [of_option bind try_except raise as_int];
    [|now intros [= <-]].
  destruct (int_of_str 10 (slice_from i (lower s))) as [octave|];
    cbn [of_option bind try_except raise as_int];
    [|now intros [= <-]].
  destruct (dict_get String.eqb _NOTE_NUMBERS (slice_to i (lower s)))
    as [n|];
    cbn [of_option bind try_except raise as_int];
    [|now intros [= <-]].
  destruct (below_end allow_end (n + (octave + octave_offset cfg) * 12));
    [discriminate | now intros [= <-]].
Qed.

(** An integer is a range of one note when it is a note; when it is not,
    [note_range] raises a [TypeError], where [ctrl_range] and
    [velocity_range] raise a [ValueError] for the same argument. *)
Theorem note_range_int (cfg : config) (v : pyval) (n : Z) :
  as_int v = Some n ->
  (0 <= n < 128 -> note_range cfg v = Ok (v, PyInt (n + 1)))
  /\ (~ 0 <= n < 128 ->
      note_range cfg v
      = Raise (Exn TypeError
                 "note range must be a tuple of integers or a string" [])
      /\ ctrl_range v
         = Raise (Exn ValueError "invalid controller value range %r" [v])
      /\ velocity_range v
         = Raise (Exn ValueError "invalid velocity range %r" [v])).
Proof.
  intros Hv.
  assert (Hb : below_end false n = true <-> 0 <= n < 128).
  { unfold below_end. rewrite andb_true_iff, Z.leb_le, Z.ltb_lt. tauto. }
  unfold note_range, ctrl_range, velocity_range, note_number, ctrl_value,
    velocity_value, succ, raise.
  destruct v; try discriminate; injection Hv as ->;
    cbn [as_int bind try_except];
    (destruct (below_end false n) eqn:E;
     [ split; [reflexivity | intros Hn; exfalso; apply Hn, Hb; reflexivity]
     | split; [intros Hn; apply Hb in Hn; discriminate
              | intros _; repeat split; reflexivity] ]).
Qed.

Lemma note_range_int_witness :
  note_range (Config 0 1 [] []) (PyInt 200)
  = Raise (Exn TypeError
             "note range must be a tuple of integers or a string" [])
  /\ ctrl_range (PyInt 200)
     = Raise (Exn ValueError "invalid controller value range %r" [PyInt 200])
  /\ velocity_range (PyInt 200)
     = Raise (Exn ValueError "invalid velocity range %r" [PyInt 200]).
Proof.
  apply (proj2 (note_range_int (Config 0 1 [] []) (PyInt 200) 200 eq_refl)).
  lia.
Defined.

(** On a string [note_range] returns a pair or raises the [ValueError]
    "invalid note range" with that string; no other exception leaves it. *)
Theorem note_range_str_outcome (cfg : config) (s : string) :
  (exists lo hi, note_range cfg (PyStr s) = Ok (lo, hi))
  \/ note_range cfg (PyStr s)
     = Raise (Exn ValueError "invalid note range %r" [PyStr s]).
Proof.
  assert (Hside : forall side,
             (exists r, match side with
                        | EmptyString => Ok (PyInt 0)
                        | _ => note_limit cfg (PyStr side)
                        end = Ok r)
             \/ (exists e, match side with
                           | EmptyString => Ok (PyInt 0)
                           | _ => note_limit cfg (PyStr side)
                           end = Raise e
                           /\ exn_cls e = ValueError)).
  { intros [|c side]; [left; eauto|].
    destruct (note_limit cfg (PyStr (String c side))) as [r|e] eqn:E;
      [left; eauto | right].
    exists e. split; [reflexivity|].
    exact (note_number_str_raises _ _ _ _ E). }
  unfold note_range.
  destruct (note_number cfg (PyStr s) false) as [n|e] eqn:Hn.
  - destruct (note_number_bounds _ _ _ _ Hn) as (z & Hz & _).
    cbn [bind try_except]. unfold succ. rewrite Hz. left. cbn. eauto.
  - cbn [bind try_except].
    destruct (split1 ":" s) as [|n0 [|n1 rest]];
      cbn [getitem nth_error of_option bind].
    + right. reflexivity.
    + destruct (Hside n0) as [(r & ->)|(e' & -> & Hc)];
        cbn [bind try_except_only]; [right; reflexivity|].
      rewrite Hc. right. reflexivity.
    + destruct (Hside n0) as [(r & ->)|(e' & -> & Hc)];
        cbn [bind try_except_only].
      * destruct (Hside n1) as [(r' & ->)|(e' & -> & Hc)];
          cbn [bind try_except_only]; [left; eauto|].
        rewrite Hc. right. reflexivity.
      * rewrite Hc. right. reflexivity.
Qed.

(** *** A colon is in no note *)

Lemma contains_app (a b : string) (c : ascii) :
  contains (a ++ b) c = (contains a c || contains b c)%bool.
Proof.
  unfold contains. induction a as [|x a IH]; [reflexivity|].
  cbn [append list_ascii_of_string existsb]. now rewrite IH, orb_assoc.
Qed.

Lemma colon_lower_char (c : ascii) :
  Ascii.eqb ":" (lower_char c) = Ascii.eqb ":" c.
Proof. destruct c as [[] [] [] [] [] [] [] []]; reflexivity. Qed.

Lemma contains_colon_lower (s : string) :
  contains (lower s) ":" = contains s ":".
Proof.
  unfold contains. induction s as [|x s IH]; [reflexivity|].
  cbn [lower list_ascii_of_string existsb].
  now rewrite colon_lower_char, IH.
Qed.

Lemma slice_to_from (i : nat) :
  forall s, (slice_to i s ++ slice_from i s)%string = s.
Proof.
  induction i as [|i IH]; intros [|c s]; simpl; try reflexivity.
  now rewrite IH.
Qed.

Lemma note_key_no_colon (name : string) (n : Z) :
  dict_get String.eqb _NOTE_NUMBERS name = Ok n -> contains name ":" = false.
Proof.
  simpl.
  repeat match goal with
         | |- (if String.eqb ?a ?b then _ else _) = _ -> _ =>
             destruct (String.eqb_spec a b); [subst; intros _; reflexivity|]
         end.
  discriminate.
Qed.

Lemma digit_not_colon (c : ascii) (x : Z) :
  digit_value c = Some x -> Ascii.eqb ":" c = false.
Proof.
  destruct c as [[] [] [] [] [] [] [] []]; intros H;
    (reflexivity || discriminate H).
Qed.

Lemma parse_digits_no_colon (base : Z) (d : string) :
  forall acc v, parse_digits base acc d = Some v -> contains d ":" = false.
Proof.
  unfold contains. induction d as [|c d IH]; intros acc v; [reflexivity|].
  cbn [parse_digits list_ascii_of_string existsb].
  destruct (Ascii.eqb c "_") eqn:Hu.
  - apply Ascii.eqb_eq in Hu. subst c.
    change (Ascii.eqb ":" "_") with false. cbn [orb].
    destruct d as [|c' d']; [discriminate|].
    destruct (Ascii.eqb c' "_"); [discriminate|].
    intros H. exact (IH _ _ H).
  - destruct (digit_value c) as [x|] eqn:Hc; [|discriminate].
    destruct (x <? base); [|discriminate].
    intros H. rewrite (digit_not_colon _ _ Hc). exact (IH _ _ H).
Qed.

Lemma colon_not_space (c : ascii) :
  Ascii.eqb ":" c = true -> isspace c = false.
Proof. intros H. apply Ascii.eqb_eq in H. now subst. Qed.

Lemma lstrip_keeps_colon (s : string) :
  contains s ":" = true -> contains (lstrip s) ":" = true.
Proof.
  unfold contains. induction s as [|c s IH]; [discriminate|].
  cbn [lstrip list_ascii_of_string existsb].
  destruct (isspace c) eqn:Hs; [|trivial].
  destruct (Ascii.eqb ":" c) eqn:Hc.
  - apply colon_not_space in Hc. congruence.
  - exact IH.
Qed.

Lemma rstrip_keeps_colon (s : string) :
  contains s ":" = true -> contains (rstrip s) ":" = true.
Proof.
  unfold contains. induction s as [|c s IH]; [discriminate|].
  cbn [rstrip list_ascii_of_string existsb].
  destruct (Ascii.eqb ":" c) eqn:Hc; cbn [orb].
  - intros _. rewrite (colon_not_space _ Hc).
    destruct (rstrip s); cbn [list_ascii_of_string existsb];
      now rewrite Hc.
  - intros H. specialize (IH H).
    destruct (rstrip s); [discriminate IH|].
    cbn [list_ascii_of_string existsb] in *. now rewrite IH, orb_true_r.
Qed.

(** The sign of a number and what follows it. *)
Lemma sign_keeps_colon (u : string) :
  exists sign body,
    match u with
    | String "-" r => (-1, r)
    | String "+" r => (1, r)
    | _ => (1, u)
    end = (sign, body)
    /\ (contains u ":" = true -> contains body ":" = true).
Proof.
  destruct u as [|c r]; [exists 1, EmptyString; split; trivial|].
  destruct c as [[] [] [] [] [] [] [] []];
    eexists; eexists; (split; [reflexivity | intros H; exact H]).
Qed.

Lemma int_of_str_no_colon (t : string) (o : Z) :
  int_of_str 10 t = Ok o -> contains t ":" = false.
Proof.
  intros H. destruct (contains t ":") eqn:C; [exfalso | reflexivity].
  apply lstrip_keeps_colon, rstrip_keeps_colon in C. fold (strip t) in C.
  unfold int_of_str in H.
  destruct (sign_keeps_colon (strip t)) as (sign & body & E & Hc).
  rewrite E, drop_base_prefix_10 in H. apply Hc in C. clear E Hc.
  destruct body as [|a s]; [discriminate H|].
  destruct a as [[] [] [] [] [] [] [] []]; cbv iota in H;
    try discriminate H;
    match type of H with
    | match parse_digits 10 0 ?d with _ => _ end = _ =>
        destruct (parse_digits 10 0 d) eqn:P; [|discriminate H];
        apply parse_digits_no_colon in P; congruence
    end.
Qed.

(** A string with a colon in it is not a note. *)
Lemma colon_not_note (cfg : config) (s : string) (allow_end : bool) :
  contains s ":" = true ->
  exists e, note_number cfg (PyStr s) allow_end = Raise e.
Proof.
  intros C. destruct (note_number cfg (PyStr s) allow_end) as [r|e] eqn:H;
    [exfalso | eauto].
  rewrite <- contains_colon_lower in C.
  unfold note_number in H.
  destruct (loop_index (lower s) 0) as [i|];
    cbn [of_option bind try_except raise as_int] in H; [|discriminate].
  rewrite <- (slice_to_from i (lower s)), contains_app in C.
  destruct (int_of_str 10 (slice_from i (lower s))) as [octave|] eqn:Ho;
    cbn [of_option bind try_except raise as_int] in H; [|discriminate].
  destruct (dict_get String.eqb _NOTE_NUMBERS (slice_to i (lower s)))
    as [n|] eqn:Hk;
    cbn [of_option bind try_except raise as_int] in H; [|discriminate].
  rewrite (note_key_no_colon _ _ Hk), (int_of_str_no_colon _ _ Ho) in C.
  discriminate C.
Qed.

Lemma split1_colon (a b : string) :
  contains a ":" = false -> split1 ":" (a ++ String ":" b) = [a; b].
Proof.
  unfold contains. induction a as [|c a IH]; [reflexivity|].
  cbn [append split1 list_ascii_of_string existsb].
  intros H. apply orb_false_iff in H as [Hc Ha].
  rewrite Ascii.eqb_sym, Hc, (IH Ha). reflexivity.
Qed.

Lemma range_side_match (cfg : config) (side : string) (r : pyval) :
  range_side cfg side r ->
  match side with
  | EmptyString => Ok (PyInt 0)
  | _ => note_limit cfg (PyStr side)
  end = Ok r.
Proof.
  intros [[-> ->]|[Hne H]]; [reflexivity|].
  destruct side; [congruence | exact H].
Qed.

(** A range string is split at its first colon and each side is read on
    its own: the pair returned is made of what the two sides stand for,
    where an empty side, lower or upper, stands for 0. *)
Theorem note_range_of_sides (cfg : config) (a b : string) (lo hi : pyval) :
  contains a ":" = false ->
  range_side cfg a lo ->
  range_side cfg b hi ->
  note_range cfg (PyStr (a ++ ":" ++ b)) = Ok (lo, hi).
Proof.
  intros Ha Hlo Hhi. change (":" ++ b)%string with (String ":" b).
  unfold note_range.
  destruct (colon_not_note cfg (a ++ String ":" b) false) as (e & ->).
  { rewrite contains_app, Ha. reflexivity. }
  cbn [bind try_except]. rewrite (split1_colon a b Ha).
  cbn [getitem nth_error of_option bind].
  rewrite (range_side_match _ _ _ Hlo). cbn [bind].
  rewrite (range_side_match _ _ _ Hhi). reflexivity.
Qed.

Lemma note_range_of_sides_witness :
  note_range (Config 0 1 [] []) (PyStr ("c4" ++ ":" ++ EmptyString))
  = Ok (PyInt 60, PyInt 0).
Proof.
  apply (note_range_of_sides (Config 0 1 [] []) "c4" EmptyString).
  - reflexivity.
  - right. split; [discriminate | reflexivity].
  - left. split; reflexivity.
Defined.

(** ** Controller and velocity ranges, continued *)

Lemma below_end_false_iff (z : Z) : below_end false z = true <-> 0 <= z < 128.
Proof. unfold below_end. rewrite andb_true_iff, Z.leb_le, Z.ltb_lt. tauto. Qed.

Lemma below_end_true_iff (z : Z) : below_end true z = true <-> 0 <= z <= 128.
Proof. unfold below_end. rewrite andb_true_iff, Z.leb_le, Z.ltb_lt. lia. Qed.

(** The shape [ctrl_range] and [velocity_range] share: a value check [f]
    tried on the whole argument, then on the two items of a tuple. *)
Lemma integer_range_spec
  (f : pyval -> bool -> result pyval) (range : pyval -> result (pyval * pyval))
  (bad : pyval -> exn) (no_int : exn) (out : pyval -> exn) :
  (forall v allow_end,
     f v allow_end
     = match as_int v with
       | None => Raise no_int
       | Some z => if below_end allow_end z then Ok v else Raise (out v)
       end) ->
  (forall v,
     range v
     = (r <- try_except
               (n <- f v false ;; m <- succ n ;; Ok (Some (n, m)))
               (fun _ =>
                  match v with
                  | PyTuple [a; b] =>
                      lower <- f a true ;; upper <- f b true ;;
                      Ok (Some (lower, upper))
                  | _ => Ok None
                  end) ;;
        match r with
        | Some p => Ok p
        | None => Raise (bad v)
        end)) ->
  forall v lo hi, range v = Ok (lo, hi) <-> range_spec v lo hi.
Proof.
  intros Hf Hrange v lo hi. rewrite Hrange. unfold range_spec. split.
  - rewrite Hf. destruct (as_int v) as [z|] eqn:Hv.
    + destruct (below_end false z) eqn:Hb; cbn [bind try_except].
      * unfold succ. rewrite Hv. cbn [bind]. intros [= <- <-].
        left. exists z. apply below_end_false_iff in Hb. auto.
      * destruct v; try discriminate.
    + cbn [bind try_except].
      destruct v as [| | |[|a [|b [|]]]| | |]; try discriminate.
      rewrite !Hf.
      destruct (as_int a) as [za|] eqn:Ha; [|discriminate].
      destruct (below_end true za) eqn:Hza; [|discriminate].
      destruct (as_int b) as [zb|] eqn:Hzb'; [|discriminate].
      destruct (below_end true zb) eqn:Hzb; [|discriminate].
      cbn [bind]. intros [= <- <-]. right.
      apply below_end_true_iff in Hza, Hzb.
      exists a, b, za, zb. auto 10.
  - intros [(z & Hv & Hz & -> & ->)
           |(a & b & za & zb & -> & Ha & Hb & Hza & Hzb & -> & ->)].
    + rewrite Hf, Hv. apply below_end_false_iff in Hz. rewrite Hz.
      cbn [bind try_except]. unfold succ. rewrite Hv. reflexivity.
    + rewrite !Hf. cbn [as_int bind try_except]. rewrite Ha, Hb.
      apply below_end_true_iff in Hza, Hzb. now rewrite Hza, Hzb.
Qed.

(** [ctrl_range] and [velocity_range] accept the same specifications and
    return the same pairs: a single integer [n] from 0 to 127 gives
    [(n, n + 1)], a tuple of exactly two integers from 0 to 128 gives these
    two, and nothing else is accepted, a string in particular. *)
Theorem integer_ranges_accept (v lo hi : pyval) :
  (ctrl_range v = Ok (lo, hi) <-> range_spec v lo hi)
  /\ (velocity_range v = Ok (lo, hi) <-> range_spec v lo hi)
  /\ (forall s, ctrl_range (PyStr s)
                = Raise (Exn ValueError "invalid controller value range %r"
                           [PyStr s])
                /\ velocity_range (PyStr s)
                   = Raise (Exn ValueError "invalid velocity range %r"
                              [PyStr s])).
Proof.
  split; [|split].
  - apply (integer_range_spec ctrl_value ctrl_range
             (format_exn ValueError "invalid controller value range %r")
             (Exn TypeError "controller value must be an integer" [])
             (fun v => Exn ValueError "controller value %d is out of range"
                         [v])).
    + intros x ae. unfold ctrl_value.
      destruct (as_int x); [destruct (below_end ae z)|]; reflexivity.
    + intros x. unfold ctrl_range, ctrl_limit.
      destruct x as [| | |[|a [|b [|]]]| | |]; reflexivity.
  - apply (integer_range_spec velocity_value velocity_range
             (format_exn ValueError "invalid velocity range %r")
             (Exn TypeError "velocity must be an integer" [])
             (fun v => Exn ValueError "velocity %d is out of range" [v])).
    + intros x ae. unfold velocity_value.
      destruct (as_int x); [destruct (below_end ae z)|]; reflexivity.
    + intros x. unfold velocity_range, velocity_limit.
      destruct x as [| | |[|a [|b [|]]]| | |]; reflexivity.
  - intros s. split; reflexivity.
Qed.

Lemma integer_ranges_accept_witness :
  velocity_range (PyTuple [NoDataOffset 128; PyInt 0])
  = Ok (NoDataOffset 128, PyInt 0).
Proof.
  apply (proj2 (proj1 (proj2 (integer_ranges_accept
                                (PyTuple [NoDataOffset 128; PyInt 0])
                                (NoDataOffset 128) (PyInt 0))))).
  right. exists (NoDataOffset 128), (PyInt 0), 128, 0.
  repeat split; lia.
Defined.

(** ** Sequences of integers as system exclusive data *)

Lemma byte_of_int_byte (c : byte) :
  byte_of_int (Z.of_N (Byte.to_N c)) = Ok c.
Proof.
  unfold byte_of_int. pose proof (Byte.to_N_bounded c) as Hc.
  replace ((0 <=? Z.of_N (Byte.to_N c)) && (Z.of_N (Byte.to_N c) <? 256))%bool
    with true
    by (symmetry; apply andb_true_iff;
        split; [apply Z.leb_le | apply Z.ltb_lt]; lia).
  now rewrite N2Z.id, Byte.of_to_N.
Qed.

Lemma bytearray_of_bytes (bs : list byte) :
  bytearray_of
    (fun x => of_option (as_int x) (Exn TypeError "an integer is required" []))
    (map (fun c => PyInt (Z.of_N (Byte.to_N c))) bs)
  = Ok bs.
Proof.
  induction bs as [|c bs IH]; [reflexivity|].
  cbn [map bytearray_of as_int of_option bind].
  rewrite byte_of_int_byte. cbn [bind]. now rewrite IH.
Qed.

(** A tuple or a list of the integer values of a framed message is copied
    byte for byte and accepted: [sysex_data] returns the message. *)
Theorem sysex_data_of_integers (allow_partial : bool) (bs : list byte) :
  framed allow_partial bs ->
  let items := map (fun c => PyInt (Z.of_N (Byte.to_N c))) bs in
  sysex_data (PyTuple items) allow_partial = Ok bs
  /\ sysex_data (PyList items) allow_partial = Ok bs.
Proof.
  intros Hf items. pose proof (framed_sysex_data _ _ Hf) as H.
  unfold sysex_data in *. cbn [sysex_to_bytearray bytearray] in *.
  unfold items. rewrite bytearray_of_bytes. split; exact H.
Qed.

Lemma sysex_data_of_integers_witness :
  sysex_data (PyTuple [PyInt 240; PyInt 126; PyInt 247]) false
  = Ok [xf0; x7e; xf7].
Proof.
  refine (proj1 (sysex_data_of_integers false [xf0; x7e; xf7] _)).
  exists [x7e], xf7. split; [reflexivity|].
  split; [|reflexivity].
  constructor; [|constructor]. unfold data_byte. simpl. lia.
Defined.

(** ** Hexadecimal text *)

Lemma int_of_str_hex2 (c : byte) :
  int_of_str 16 (hex2 c) = Ok (Z.of_N (Byte.to_N c)).
Proof. destruct c; reflexivity. Qed.

Lemma pairs_hex2 (c : byte) (s : string) :
  pairs (hex2 c ++ s) = hex2 c :: pairs s.
Proof. reflexivity. Qed.

Lemma split_hex2 (c : byte) :
  split " " (hex2 c) = [hex2 c]
  /\ forall s, split " " (hex2 c ++ String " " s) = hex2 c :: split " " s.
Proof. destruct c; split; reflexivity. Qed.

Lemma hex_tokens_bytes (tokens : list byte) :
  bytearray_of (int_of_str 16) (map hex2 tokens) = Ok tokens.
Proof.
  induction tokens as [|c tokens IH]; [reflexivity|].
  cbn [map bytearray_of]. rewrite int_of_str_hex2. cbn [bind].
  rewrite byte_of_int_byte. cbn [bind]. now rewrite IH.
Qed.

Lemma pairs_hex_joined (bs : list byte) :
  pairs (hex_joined bs) = map hex2 bs.
Proof.
  induction bs as [|c bs IH]; [reflexivity|].
  cbn [hex_joined map]. now rewrite pairs_hex2, IH.
Qed.

Lemma split_hex_spaced (c : byte) (bs : list byte) :
  split " " (hex_spaced (c :: bs)) = map hex2 (c :: bs).
Proof.
  revert c. induction bs as [|d bs IH]; intros c.
  - apply split_hex2.
  - change (hex_spaced (c :: d :: bs))
      with (hex2 c ++ String " " (hex_spaced (d :: bs)))%string.
    rewrite (proj2 (split_hex2 c)), IH. reflexivity.
Qed.

Lemma hex2_head (c : byte) (s : string) :
  exists x y, (hex2 c ++ s)%string = String x (String y s)
              /\ contains delimiters x = false.
Proof. destruct c; eexists; eexists; split; reflexivity. Qed.

(** A message that starts with 0xF0, written in hexadecimal with two
    upper-case digits for each byte, is read back byte for byte, whether
    the bytes are written one after the other or with a space between
    them. *)
Theorem sysex_to_bytearray_hex (rest : list byte) :
  sysex_to_bytearray (PyStr (hex_joined (xf0 :: rest))) = Ok (xf0 :: rest)
  /\ sysex_to_bytearray (PyStr (hex_spaced (xf0 :: rest))) = Ok (xf0 :: rest).
Proof.
  split.
  - assert (E : sysex_to_bytearray (PyStr (hex_joined (xf0 :: rest)))
                = hex_pairs (hex_joined (xf0 :: rest))).
    { destruct rest as [|c rest]; [reflexivity|].
      cbn [hex_joined].
      destruct (hex2_head c (hex_joined rest)) as (x & y & -> & Hx).
      set (t := hex_joined rest).
      change (hex2 xf0 ++ String x (String y t))%string
        with (String "F" (String "0" (String x (String y t)))).
      unfold sysex_to_bytearray.
      change (String.prefix "F0" (String "F" (String "0" (String x (String y t)))))
        with true.
      change (String.get 2 (String "F" (String "0" (String x (String y t)))))
        with (Some x).
      cbn [orb]. now rewrite Hx. }
    rewrite E. unfold hex_pairs.
    rewrite pairs_hex_joined. apply hex_tokens_bytes.
  - destruct rest as [|c rest]; [reflexivity|].
    assert (E : sysex_to_bytearray (PyStr (hex_spaced (xf0 :: c :: rest)))
                = hex_tokens " " (hex_spaced (xf0 :: c :: rest)))
      by reflexivity.
    rewrite E. unfold hex_tokens.
    rewrite split_hex_spaced. apply hex_tokens_bytes.
Qed.

(** ** What the range functions return *)

Lemma note_range_tuple (cfg : config) (a b : pyval) (rest : list pyval)
  (lo hi : pyval) :
  note_limit cfg a = Ok lo -> note_limit cfg b = Ok hi ->
  note_range cfg (PyTuple (a :: b :: rest)) = Ok (lo, hi).
Proof.
  intros Ha Hb. unfold note_range.
  cbn [note_number bind try_except raise getitem nth_error of_option].
  rewrite Ha. cbn [bind]. rewrite Hb. reflexivity.
Qed.

Lemma note_range_colon (cfg : config) (a b : string) (lo hi : pyval) :
  contains a ":" = false ->
  range_side cfg a lo ->
  range_side cfg b hi ->
  note_range cfg (PyStr (a ++ ":" ++ b)) = Ok (lo, hi).
Proof.
  intros Ha Hlo Hhi. change (":" ++ b)%string with (String ":" b).
  unfold note_range.
  destruct (colon_not_note cfg (a ++ String ":" b) false) as (e & ->).
  { rewrite contains_app, Ha. reflexivity. }
  cbn [bind try_except]. rewrite (split1_colon a b Ha).
  cbn [getitem nth_error of_option bind].
  rewrite (range_side_match _ _ _ Hlo). cbn [bind].
  rewrite (range_side_match _ _ _ Hhi). reflexivity.
Qed.

Lemma split1_two (s : string) :
  forall a b rest,
    split1 ":" s = a :: b :: rest ->
    rest = [] /\ s = (a ++ ":" ++ b)%string /\ contains a ":" = false.
Proof.
  induction s as [|c s IH]; intros a b rest; cbn [split1]; [discriminate|].
  destruct (Ascii.eqb c ":") eqn:Hc.
  - apply Ascii.eqb_eq in Hc. subst c. intros [= <- <- <-]. auto.
  - destruct (split1 ":" s) as [|w ws] eqn:E; [discriminate|].
    intros [= <- ->]. destruct (IH _ _ _ eq_refl) as (-> & -> & Hw).
    repeat split. unfold contains in *.
    cbn [list_ascii_of_string existsb]. now rewrite Ascii.eqb_sym, Hc.
Qed.

Lemma match_range_side (cfg : config) (side : string) (r : pyval) :
  match side with
  | EmptyString => Ok (PyInt 0)
  | _ => note_limit cfg (PyStr side)
  end = Ok r ->
  range_side cfg side r.
Proof.
  destruct side.
  - intros [= <-]. left. auto.
  - intros H. right. split; [discriminate | exact H].
Qed.

Lemma getitem_Ok {A : Type} (l : list A) (i : nat) (x : A) :
  getitem l i = Ok x -> nth_error l i = Some x.
Proof.
  unfold getitem. destruct (nth_error l i); [now intros [= ->] | discriminate].
Qed.

(** Every way in which [note_range] returns a pair. *)
Lemma note_range_cases (cfg : config) (spec lo hi : pyval) :
  note_range cfg spec = Ok (lo, hi) ->
  (note_number cfg spec false = Ok lo /\ is_single lo (Ok (lo, hi)))
  \/ (exists a b rest,
        spec = PyTuple (a :: b :: rest)
        /\ note_limit cfg a = Ok lo /\ note_limit cfg b = Ok hi)
  \/ (exists a b,
        spec = PyStr (a ++ ":" ++ b)
        /\ contains a ":" = false
        /\ range_side cfg a lo /\ range_side cfg b hi).
Proof.
  intros H. destruct (note_number cfg spec false) as [n|e] eqn:Hn.
  - left. destruct (note_range_single cfg _ _ Hn) as (z & Hz & Hb & E).
    rewrite H in E. injection E as <- ->.
    split; [reflexivity | exists z; auto].
  - right. unfold note_range in H. rewrite Hn in H.
    cbn [bind try_except] in H. unfold try_except_only in H.
    match type of H with
    | match ?m with _ => _ end = _ => destruct m as [p|e'] eqn:Hm
    end.
    2: { destruct (existsb _ _); discriminate. }
    injection H as ->. destruct spec; try discriminate.
    + right.
      apply bind_Ok in Hm as (n0 & G0 & Hm).
      apply bind_Ok in Hm as (lower & Hlo & Hm).
      apply bind_Ok in Hm as (n1 & G1 & Hm).
      apply bind_Ok in Hm as (upper & Hhi & Hm).
      injection Hm as <- <-.
      apply getitem_Ok in G0, G1.
      destruct (split1 ":" s) as [|x [|y rest]] eqn:Hs; try discriminate.
      injection G0 as <-. injection G1 as <-.
      destruct (split1_two _ _ _ _ Hs) as (_ & -> & Hx).
      exists x, y. repeat split; try assumption;
        apply match_range_side; assumption.
    + left.
      apply bind_Ok in Hm as (a & G0 & Hm).
      apply bind_Ok in Hm as (lower & Hlo & Hm).
      apply bind_Ok in Hm as (b & G1 & Hm).
      apply bind_Ok in Hm as (upper & Hhi & Hm).
      injection Hm as <- <-.
      apply getitem_Ok in G0, G1.
      destruct items as [|x [|y rest]]; try discriminate.
      injection G0 as <-. injection G1 as <-.
      exists x, y, rest. auto.
Qed.

Lemma ctrl_range_spec (v lo hi : pyval) :
  ctrl_range v = Ok (lo, hi) <-> range_spec v lo hi.
Proof.
  apply (integer_range_spec ctrl_value ctrl_range
           (format_exn ValueError "invalid controller value range %r")
           (Exn TypeError "controller value must be an integer" [])
           (fun v => Exn ValueError "controller value %d is out of range"
                       [v])).
  - intros x ae. unfold ctrl_value.
    destruct (as_int x); [destruct (below_end ae z)|]; reflexivity.
  - intros x. unfold ctrl_range, ctrl_limit.
    destruct x as [| | |[|a [|b [|]]]| | |]; reflexivity.
Qed.

Lemma velocity_range_spec (v lo hi : pyval) :
  velocity_range v = Ok (lo, hi) <-> range_spec v lo hi.
Proof.
  apply (integer_range_spec velocity_value velocity_range
           (format_exn ValueError "invalid velocity range %r")
           (Exn TypeError "velocity must be an integer" [])
           (fun v => Exn ValueError "velocity %d is out of range" [v])).
  - intros x ae. unfold velocity_value.
    destruct (as_int x); [destruct (below_end ae z)|]; reflexivity.
  - intros x. unfold velocity_range, velocity_limit.
    destruct x as [| | |[|a [|b [|]]]| | |]; reflexivity.
Qed.

(** C7 as stated fails: the two boundaries of a tuple are not put in order
    and not compared; [ctrl_range((5, 3))] is [(5, 3)]. *)
Lemma range_of_tuple_not_ordered :
  ~ (forall (spec lo hi : pyval) (l h : Z),
       ctrl_range spec = Ok (lo, hi) ->
       as_int lo = Some l -> as_int hi = Some h -> l <= h).
Proof.
  intros H.
  specialize (H (PyTuple [PyInt 5; PyInt 3]) (PyInt 5) (PyInt 3) 5 3
                eq_refl eq_refl eq_refl).
  lia.
Qed.

(** C7, amended: every pair that [note_range], [ctrl_range] or
    [velocity_range] returns consists of two integers from 0 to 128.  When
    the specification is a single value, accepted by [note_number],
    [ctrl_value] or [velocity_value], the pair is that value [n] and [n + 1],
    so the second is the first plus one.  A tuple gives its two boundaries
    in the order given, the first as the lower one: [note_range] reads the
    first two items with [note_limit], [ctrl_range] and [velocity_range]
    return the two integers of a tuple of two as they are.  A string
    [lower:upper] gives what its two sides stand for, the side before the
    first colon as the lower one, an empty side standing for 0.  Nothing
    else is accepted, and the two boundaries are never compared. *)
Theorem range_results (cfg : config) (spec : pyval) :
  (forall lo hi,
     note_range cfg spec = Ok (lo, hi) \/ ctrl_range spec = Ok (lo, hi)
     \/ velocity_range spec = Ok (lo, hi) ->
     is_limit lo /\ is_limit hi)
  /\ (forall n, note_number cfg spec false = Ok n ->
                is_single n (note_range cfg spec))
  /\ (forall n, ctrl_value spec false = Ok n -> is_single n (ctrl_range spec))
  /\ (forall n, velocity_value spec false = Ok n ->
                is_single n (velocity_range spec))
  /\ (forall a b rest lo hi,
        note_limit cfg a = Ok lo -> note_limit cfg b = Ok hi ->
        note_range cfg (PyTuple (a :: b :: rest)) = Ok (lo, hi))
  /\ (forall a b,
        is_limit a -> is_limit b ->
        ctrl_range (PyTuple [a; b]) = Ok (a, b)
        /\ velocity_range (PyTuple [a; b]) = Ok (a, b))
  /\ (forall a b lo hi,
        contains a ":" = false ->
        range_side cfg a lo -> range_side cfg b hi ->
        note_range cfg (PyStr (a ++ ":" ++ b)) = Ok (lo, hi))
  /\ (forall lo hi,
        note_range cfg spec = Ok (lo, hi) ->
        (note_number cfg spec false = Ok lo /\ is_single lo (Ok (lo, hi)))
        \/ (exists a b rest,
              spec = PyTuple (a :: b :: rest)
              /\ note_limit cfg a = Ok lo /\ note_limit cfg b = Ok hi)
        \/ (exists a b,
              spec = PyStr (a ++ ":" ++ b)
              /\ contains a ":" = false
              /\ range_side cfg a lo /\ range_side cfg b hi))
  /\ (forall lo hi,
        ctrl_range spec = Ok (lo, hi) \/ velocity_range spec = Ok (lo, hi) ->
        range_spec spec lo hi).
Proof.
  split; [|split; [|split; [|split; [|split; [|split; [|split; [|split]]]]]]].
  - intros lo hi [H|[H|H]].
    + exact (note_range_limits cfg _ _ _ H).
    + exact (ctrl_range_limits _ _ _ H).
    + exact (velocity_range_limits _ _ _ H).
  - intros n. apply note_range_single.
  - intros n. apply ctrl_range_single.
  - intros n. apply velocity_range_single.
  - intros a b rest lo hi. apply note_range_tuple.
  - intros a b (za & Ha & Hza) (zb & Hb & Hzb).
    assert (Hs : range_spec (PyTuple [a; b]) a b)
      by (right; exists a, b, za, zb; auto 10).
    split; [apply ctrl_range_spec | apply velocity_range_spec]; exact Hs.
  - intros a b lo hi. apply note_range_colon.
  - intros lo hi. apply note_range_cases.
  - intros lo hi [H|H]; [apply ctrl_range_spec | apply velocity_range_spec];
      exact H.
Qed.

Lemma range_results_witness :
  is_single (PyInt 7) (ctrl_range (PyInt 7))
  /\ (is_limit (PyInt 60) /\ is_limit (PyInt 72))
  /\ note_range (Config 0 1 [] []) (PyTuple [PyStr "c5"; PyInt 3; PyNone])
     = Ok (PyInt 72, PyInt 3)
  /\ velocity_range (PyTuple [PyInt 5; NoDataOffset 3])
     = Ok (PyInt 5, NoDataOffset 3)
  /\ note_range (Config 0 1 [] []) (PyStr ("c5" ++ ":" ++ "c4"))
     = Ok (PyInt 72, PyInt 60).
Proof.
  split; [|split; [|split; [|split]]].
  - apply (proj1 (proj2 (proj2 (range_results (Config 0 1 [] []) (PyInt 7))))).
    reflexivity.
  - apply (proj1 (range_results (Config 0 1 [] []) (PyStr "c4:c5"))).
    left. reflexivity.
  - apply (proj1 (proj2 (proj2 (proj2 (proj2
             (range_results (Config 0 1 [] []) PyNone)))))); reflexivity.
  - apply (proj1 (proj2 (proj2 (proj2 (proj2 (proj2
             (range_results (Config 0 1 [] []) PyNone))))))).
    + exists 5. split; [reflexivity | lia].
    + exists 3. split; [reflexivity | lia].
  - apply (proj1 (proj2 (proj2 (proj2 (proj2 (proj2 (proj2
             (range_results (Config 0 1 [] []) PyNone)))))))).
    + reflexivity.
    + right. split; [discriminate | reflexivity].
    + right. split; [discriminate | reflexivity].
Defined.

(** ** The readings of a string by [sysex_to_bytearray] *)

Lemma int_of_str_hex_byte (w : bool * byte) :
  int_of_str 16 (hex_byte w) = Ok (Z.of_N (Byte.to_N (snd w))).
Proof. destruct w as [[] c]; destruct c; reflexivity. Qed.

Lemma hex_byte_chars (w : bool * byte) :
  exists x y,
    hex_byte w = String x (String y EmptyString)
    /\ contains delimiters x = false /\ contains delimiters y = false.
Proof.
  destruct w as [[] c]; destruct c;
    eexists; eexists; (split; [reflexivity | split; reflexivity]).
Qed.

Lemma hex_bytes_read (ws : list (bool * byte)) :
  bytearray_of (int_of_str 16) (map hex_byte ws) = Ok (map snd ws).
Proof.
  induction ws as [|w ws IH]; [reflexivity|].
  cbn [map bytearray_of]. rewrite int_of_str_hex_byte. cbn [bind].
  rewrite byte_of_int_byte. cbn [bind]. now rewrite IH.
Qed.

Lemma pairs_hex_text (ws : list (bool * byte)) :
  pairs (hex_text EmptyString ws) = map hex_byte ws.
Proof.
  induction ws as [|w ws IH]; [reflexivity|].
  destruct ws as [|w' ws]; [reflexivity|].
  change (hex_text EmptyString (w :: w' :: ws))
    with (hex_byte w ++ hex_text EmptyString (w' :: ws))%string.
  change (map hex_byte (w :: w' :: ws))
    with (hex_byte w :: map hex_byte (w' :: ws)).
  rewrite <- IH. reflexivity.
Qed.

Lemma split_two (x y sep : ascii) :
  Ascii.eqb x sep = false -> Ascii.eqb y sep = false ->
  split sep (String x (String y EmptyString))
  = [String x (String y EmptyString)]
  /\ forall s,
       split sep (String x (String y (String sep s)))
       = String x (String y EmptyString) :: split sep s.
Proof.
  intros Hx Hy. split; [|intros s]; cbn [split];
    rewrite Hx, Hy, ?Ascii.eqb_refl; reflexivity.
Qed.

Lemma delimiter_differs (sep x : ascii) :
  contains delimiters sep = true -> contains delimiters x = false ->
  Ascii.eqb x sep = false.
Proof.
  intros Hs Hx. destruct (Ascii.eqb_spec x sep) as [->|]; congruence.
Qed.

Lemma split_hex_text (sep : ascii) (w : bool * byte)
  (ws : list (bool * byte)) :
  contains delimiters sep = true ->
  split sep (hex_text (String sep EmptyString) (w :: ws))
  = map hex_byte (w :: ws).
Proof.
  intros Hsep. revert w. induction ws as [|w' ws IH]; intros w.
  - destruct (hex_byte_chars w) as (x & y & E & Hx & Hy).
    cbn [hex_text map]. rewrite E.
    apply split_two; eapply delimiter_differs; eassumption.
  - change (hex_text (String sep EmptyString) (w :: w' :: ws))
      with (hex_byte w
            ++ String sep (hex_text (String sep EmptyString) (w' :: ws)))%string.
    change (map hex_byte (w :: w' :: ws))
      with (hex_byte w :: map hex_byte (w' :: ws)).
    rewrite <- IH.
    destruct (hex_byte_chars w) as (x & y & E & Hx & Hy). rewrite E.
    apply split_two; eapply delimiter_differs; eassumption.
Qed.

Lemma bytearray_of_int_raises (base : Z) (l : list string) (e : exn) :
  bytearray_of (int_of_str base) l = Raise e -> exn_cls e = ValueError.
Proof.
  induction l as [|x l IH]; cbn [bytearray_of]; [discriminate|].
  unfold int_of_str at 1.
  match goal with
  | |- bind ?m _ = _ -> _ =>
      assert (Hm : (exists n, m = Ok n)
                   \/ (exists e', m = Raise e' /\ exn_cls e' = ValueError))
  end.
  { destruct (match strip x with
              | String "-" r => (-1, r)
              | String "+" r => (1, r)
              | _ => (1, strip x)
              end) as [sign body].
    destruct (drop_base_prefix base body) as [|a s]; [right; eauto|].
    destruct a as [[] [] [] [] [] [] [] []]; cbv iota;
      try (right; eexists; split; reflexivity);
      match goal with
      | |- context [parse_digits base 0 ?d] =>
          destruct (parse_digits base 0 d);
          [left; eauto | right; eexists; split; reflexivity]
      end. }
  destruct Hm as [(n & ->)|(e' & -> & He')]; cbn [bind].
  - unfold byte_of_int.
    destruct ((0 <=? n) && (n <? 256))%bool; cbn [raise bind].
    + destruct (Byte.of_N (Z.to_N n)); cbn [of_option bind].
      * destruct (bytearray_of (int_of_str base) l) eqn:El; cbn [bind];
          [discriminate | intros [= <-]; now apply IH].
      * now intros [= <-].
    + now intros [= <-].
  - now intros [= <-].
Qed.

Lemma delimiters_listed (c : ascii) :
  In c [","; " "; "009"; "010"; "011"; "012"; "013"]%char
  <-> contains delimiters c = true.
Proof.
  rewrite contains_In. cbn [delimiters list_ascii_of_string In]. tauto.
Qed.

(** C9, amended: a string that starts with "F0" or "f0" is read as
    hexadecimal pairs over its whole length when it has fewer than three
    characters or its third character is not a comma, a space, a tab, a
    line feed, a vertical tab, a form feed or a carriage return; otherwise
    it is split at every occurrence of its third character and each piece
    is read as one hexadecimal byte.  A string that starts with neither is
    turned into the codes of its characters, one byte each.  So a message
    that starts with 0xF0 and is written with two hexadecimal digits for
    each byte, in small or capital letters, is read back byte for byte,
    whether the bytes follow each other directly or are separated by one of
    these characters; and when such a reading fails, what is raised is a
    [ValueError]. *)
Theorem sysex_to_bytearray_str (s : string) :
  let delims := [","; " "; "009"; "010"; "011"; "012"; "013"]%char in
  (String.prefix "F0" s = true \/ String.prefix "f0" s = true ->
   ((String.length s < 3)%nat ->
    sysex_to_bytearray (PyStr s)
    = bytearray_of (int_of_str 16) (pairs s))
   /\ (forall c, String.get 2 s = Some c -> ~ In c delims ->
                 sysex_to_bytearray (PyStr s)
                 = bytearray_of (int_of_str 16) (pairs s))
   /\ (forall c, String.get 2 s = Some c -> In c delims ->
                 sysex_to_bytearray (PyStr s)
                 = bytearray_of (int_of_str 16) (split c s))
   /\ (forall e, sysex_to_bytearray (PyStr s) = Raise e ->
                 exn_cls e = ValueError))
  /\ (String.prefix "F0" s = false -> String.prefix "f0" s = false ->
      sysex_to_bytearray (PyStr s)
      = Ok (map byte_of_ascii (list_ascii_of_string s)))
  /\ (forall small ws,
        sysex_to_bytearray
          (PyStr (hex_text EmptyString ((small, xf0) :: ws)))
        = Ok (xf0 :: map snd ws))
  /\ (forall small ws sep,
        In sep delims ->
        sysex_to_bytearray
          (PyStr (hex_text (String sep EmptyString) ((small, xf0) :: ws)))
        = Ok (xf0 :: map snd ws)).
Proof.
  intros delims.
  assert (Hprefix : forall small t,
             (String.prefix "F0" (hex_byte (small, xf0) ++ t)
              || String.prefix "f0" (hex_byte (small, xf0) ++ t))%bool
             = true)
    by (intros [] t; destruct t; reflexivity).
  split; [|split; [|split]].
  - intros Hp.
    assert (E : (String.prefix "F0" s || String.prefix "f0" s)%bool = true)
      by (apply orb_true_iff; exact Hp).
    unfold sysex_to_bytearray. rewrite E.
    split; [|split; [|split]].
    + intros Hlen. apply get_2_None in Hlen. now rewrite Hlen.
    + intros c Hc Hnd. rewrite Hc.
      destruct (contains delimiters c) eqn:Hd; [|reflexivity].
      apply delimiters_listed in Hd. contradiction.
    + intros c Hc Hd. rewrite Hc.
      apply delimiters_listed in Hd. now rewrite Hd.
    + intros e. destruct (String.get 2 s) as [c|];
        [destruct (negb (contains delimiters c))|];
        apply bytearray_of_int_raises.
  - intros H1 H2. unfold sysex_to_bytearray. rewrite H1, H2.
    apply char_codes_total.
  - intros small ws.
    change (xf0 :: map snd ws) with (map snd ((small, xf0) :: ws)).
    rewrite <- hex_bytes_read, <- pairs_hex_text.
    unfold sysex_to_bytearray.
    destruct ws as [|w ws].
    + destruct small; reflexivity.
    + change (hex_text EmptyString ((small, xf0) :: w :: ws))
        with (hex_byte (small, xf0) ++ hex_text EmptyString (w :: ws))%string.
      rewrite Hprefix.
      assert (Hget : exists x,
                 String.get 2 (hex_byte (small, xf0)
                               ++ hex_text EmptyString (w :: ws))
                 = Some x /\ contains delimiters x = false).
      { destruct (hex_byte_chars w) as (x & y & E & Hx & Hy).
        exists x. split; [|exact Hx].
        destruct ws; cbn [hex_text]; rewrite E; reflexivity. }
      destruct Hget as (x & -> & ->). reflexivity.
  - intros small ws sep Hsep. apply delimiters_listed in Hsep.
    change (xf0 :: map snd ws) with (map snd ((small, xf0) :: ws)).
    rewrite <- hex_bytes_read.
    unfold sysex_to_bytearray.
    destruct ws as [|w ws].
    + destruct small; reflexivity.
    + rewrite <- (split_hex_text sep _ _ Hsep).
      change (hex_text (String sep EmptyString) ((small, xf0) :: w :: ws))
        with (hex_byte (small, xf0)
              ++ String sep
                   (hex_text (String sep EmptyString) (w :: ws)))%string.
      rewrite Hprefix.
      change (String.get 2 (hex_byte (small, xf0)
                            ++ String sep
                                 (hex_text (String sep EmptyString) (w :: ws))))
        with (Some sep).
      cbv iota beta. rewrite Hsep. reflexivity.
Qed.

Lemma sysex_to_bytearray_str_witness :
  sysex_to_bytearray (PyStr "F0,7e,F7") = Ok [xf0; x7e; xf7]
  /\ sysex_to_bytearray (PyStr "f07ef7") = Ok [xf0; x7e; xf7]
  /\ sysex_to_bytearray (PyStr "F0") = Ok [xf0]
  /\ sysex_to_bytearray (PyStr "abc") = Ok ["a"%byte; "b"%byte; "c"%byte]
  /\ sysex_to_bytearray (PyStr "F0 7E F7")
     = bytearray_of (int_of_str 16) ["F0"; "7E"; "F7"].
Proof.
  split; [|split; [|split; [|split]]].
  - apply (proj2 (proj2 (proj2 (sysex_to_bytearray_str EmptyString)))
             false [(true, x7e); (false, xf7)] ","%char).
    simpl. tauto.
  - apply (proj1 (proj2 (proj2 (sysex_to_bytearray_str EmptyString)))
             true [(true, x7e); (true, xf7)]).
  - apply (proj1 (proj2 (proj2 (sysex_to_bytearray_str EmptyString)))
             false []).
  - apply (proj1 (proj2 (sysex_to_bytearray_str "abc"))); reflexivity.
  - apply (proj1 (sysex_to_bytearray_str "F0 7E F7")) with (c := " "%char).
    + left. reflexivity.
    + reflexivity.
    + simpl. tauto.
Defined.
